(** * Eligibility service of the reading-quiz API

    A shallow embedding of [eligibilityService.js] (together with the two
    catalog accessors of [excelService.js] it calls) and the properties of
    its two filters:

    - first filter, [calculateEligibility]: which question types can be
      asked for a passage, from the [Type_Requirements] table;
    - second filter, [decideFinalTypes]: the final, ordered list of type ids
      after the business rules (tone policy, basic types, capacity).

    A JavaScript object used as a dictionary is the finite map of its own
    string keys ([gmap string _]) in front of [Object.prototype]: a read of
    a key the object does not have falls through to the inherited members,
    and a write to [__proto__] goes to the inherited setter.
    [console.warn] has no influence on any returned value and is left
    out. *)

From Stdlib Require Import ZArith List Ascii String Sorted Permutation DecimalString.
From stdpp Require Import gmap strings list fin_maps.

Local Open Scope string_scope.
Local Open Scope list_scope.
Local Open Scope Z_scope.

(** ** What the JavaScript engine provides

    Numbers (IEEE doubles), their conversions from and to strings and the
    Unicode-aware string methods belong to the engine, not to the
    repository.  The development is generic in them: every theorem below
    holds for any implementation of this interface. *)

Class JsRuntime := {
  number : Type;
  num_NaN : number;
  num_of_Z : Z -> number;                 (* integer literals *)
  num_isNaN : number -> bool;             (* isNaN(n) *)
  num_eqb : number -> number -> bool;     (* n === m on numbers *)
  num_ltb : number -> number -> bool;     (* n < m on numbers that are not NaN *)
  StringToNumber : string -> number;      (* Number(s) *)
  NumberToString : number -> string;      (* String(n) *)
  toLowerCase : string -> string;         (* s.toLowerCase() *)
  trim : string -> string                 (* s.trim() *)
}.

(** ** Engine-independent helpers *)

(** [s.startsWith(p)] *)
Fixpoint startsWith (s p : string) {struct p} : bool :=
  match p with
  | EmptyString => true
  | String c p' =>
      match s with
      | EmptyString => false
      | String d s' => Ascii.eqb c d && startsWith s' p'
      end
  end.

(** [s.split(c)] for a one-character separator: never the empty list. *)
Fixpoint split_on (c : ascii) (s : string) : list string :=
  match s with
  | EmptyString => [EmptyString]
  | String a s' =>
      if Ascii.eqb a c then EmptyString :: split_on c s'
      else match split_on c s' with
           | h :: t => String a h :: t
           | [] => [String a EmptyString]
           end
  end.

(** [Array.prototype.sort(cmp)].  The sort is stable, and for a consistent
    comparator the result is the one stable sorted arrangement of the input,
    which this insertion sort computes: an element is placed before the
    first later element that does not compare below it. *)
Section Sort.
Context {A : Type} (cmp : A -> A -> Z).

Fixpoint sort_insert (x : A) (l : list A) : list A :=
  match l with
  | [] => [x]
  | y :: l' => if cmp x y <=? 0 then x :: l else y :: sort_insert x l'
  end.

Fixpoint js_sort (l : list A) : list A :=
  match l with
  | [] => []
  | x :: l' => sort_insert x (js_sort l')
  end.
End Sort.

(** A JavaScript [Set] of strings: insertion ordered, no duplicates. *)
Module StrSet.
Definition t := list string.
Definition empty : t := [].
Definition has (s : t) (x : string) : bool := existsb (String.eqb x) s.
Definition add (x : string) (s : t) : t := if has s x then s else s ++ [x].
Definition size (s : t) : Z := Z.of_nat (length s).
(** [Array.from(set)] *)
Definition to_array (s : t) : list string := s.
End StrSet.

Section Service.
Context `{RT : JsRuntime}.

(** ** JavaScript values

    [VObject repr] is an object that is neither an array nor a primitive, a
    function included; the service can only observe it through [typeof],
    [Array.isArray], its truthiness and its conversion to a string, which
    is [repr]. *)

#[local] Set Warnings "-register-all".
Inductive value : Type :=
| VUndefined
| VNull
| VBool (b : bool)
| VNum (n : number)
| VStr (s : string)
| VArr (l : list value)
| VObject (repr : string).

(** [String(v)]; for an array, [join(",")] with null and undefined elements
    printed as the empty string. *)
Fixpoint ToString (v : value) : string :=
  match v with
  | VUndefined => "undefined"
  | VNull => "null"
  | VBool true => "true"
  | VBool false => "false"
  | VNum n => NumberToString n
  | VStr s => s
  | VObject repr => repr
  | VArr l =>
      String.concat ","
        (List.map (fun e => match e with
                            | VUndefined | VNull => ""
                            | _ => ToString e
                            end) l)
  end.

(** [Number(v)] *)
Definition ToNumber (v : value) : number :=
  match v with
  | VUndefined => num_NaN
  | VNull => num_of_Z 0
  | VBool true => num_of_Z 1
  | VBool false => num_of_Z 0
  | VNum n => n
  | VStr s => StringToNumber s
  | VArr _ | VObject _ => StringToNumber (ToString v)
  end.

(** [a === b].  Two arrays or objects are equal only as the same object;
    the service compares normalized values only, which are never arrays or
    objects. *)
Definition strict_eq (a b : value) : bool :=
  match a, b with
  | VUndefined, VUndefined => true
  | VNull, VNull => true
  | VBool x, VBool y => Bool.eqb x y
  | VNum x, VNum y => num_eqb x y
  | VStr x, VStr y => String.eqb x y
  | _, _ => false
  end.

(** The abstract relational comparison behind [<], [>], [<=], [>=]:
    [None] is the "undefined" outcome (a NaN operand). *)
Definition js_lt (a b : value) : option bool :=
  let prim v := match v with VArr _ | VObject _ => VStr (ToString v) | _ => v end in
  match prim a, prim b with
  | VStr x, VStr y => Some (String.ltb x y)
  | pa, pb =>
      let na := ToNumber pa in
      let nb := ToNumber pb in
      if num_isNaN na || num_isNaN nb then None else Some (num_ltb na nb)
  end.

Definition js_less (a b : value) : bool := default false (js_lt a b).
Definition js_greater (a b : value) : bool := default false (js_lt b a).
Definition js_less_eq (a b : value) : bool :=
  match js_lt b a with Some false => true | _ => false end.
Definition js_greater_eq (a b : value) : bool :=
  match js_lt a b with Some false => true | _ => false end.

(** [arr.includes(s)] for a string [s] (SameValueZero). *)
Definition includes (arr : list value) (s : string) : bool :=
  existsb (fun e => match e with VStr x => String.eqb x s | _ => false end) arr.

(** ** Catalog records (excelService.js) *)

Record QuestionType := {
  type_id : string;
  name : string;
  priority : Z;
  category : string;
  description : string
}.

Record Requirement := {
  req_type_id : string;
  feature : string;
  operator : string;
  value_ : value
}.

(** The loaded workbook, as far as the service reads it; a field is [None]
    when it is missing. *)
Record ExcelData := {
  questionTypes : option (list QuestionType);
  typeRequirements : option (list Requirement)
}.

Definition getDefaultQuestionTypes : list QuestionType :=
  [ {| type_id := "R_MAIN"; name := "주제/요지"; priority := 1; category := "MAIN"; description := "글의 주제/제목/요지 파악" |};
    {| type_id := "R_DETAIL"; name := "세부정보"; priority := 2; category := "DETAIL"; description := "내용 일치/불일치" |};
    {| type_id := "R_DETAIL_SPECIFIC"; name := "특정정보"; priority := 3; category := "DETAIL"; description := "특정 정보 파악" |};
    {| type_id := "R_INFER_REF"; name := "지칭추론"; priority := 4; category := "INFER"; description := "지칭 추론" |};
    {| type_id := "R_INFER_SUMMARY"; name := "요약문빈칸"; priority := 5; category := "INFER"; description := "요약문 빈칸 추론" |};
    {| type_id := "R_INFER_BLANK"; name := "본문빈칸"; priority := 6; category := "INFER"; description := "본문 빈칸 추론" |};
    {| type_id := "R_INFER_MEANING"; name := "의미추론"; priority := 7; category := "INFER"; description := "함축 의미 추론" |};
    {| type_id := "R_GRAMMAR_USAGE"; name := "동일용법"; priority := 8; category := "GRAMMAR"; description := "동일하게 쓰인 문장 고르기" |};
    {| type_id := "R_GRAMMAR_ERROR"; name := "어법오류"; priority := 9; category := "GRAMMAR"; description := "어법상 틀린 것 고르기" |};
    {| type_id := "R_VOCAB_SYN"; name := "유의어"; priority := 10; category := "VOCAB"; description := "유의어" |};
    {| type_id := "R_VOCAB_ANT"; name := "반의어"; priority := 11; category := "VOCAB"; description := "반의어" |};
    {| type_id := "R_VOCAB_DEF"; name := "영영뜻풀이"; priority := 12; category := "VOCAB"; description := "영영 뜻풀이" |};
    {| type_id := "R_VOCAB_CONTEXT"; name := "문맥상어휘"; priority := 13; category := "VOCAB"; description := "문맥상 틀린 어휘 파악" |};
    {| type_id := "R_FLOW_IRRELEVANT"; name := "무관한문장"; priority := 14; category := "FLOW"; description := "흐름과 무관한 문장" |};
    {| type_id := "R_FLOW_SENTENCE"; name := "문장순서"; priority := 15; category := "FLOW"; description := "문장 순서 배열" |};
    {| type_id := "R_FLOW_PARAGRAPH"; name := "문단순서"; priority := 16; category := "FLOW"; description := "문단 순서 배열" |};
    {| type_id := "R_FLOW_INSERT"; name := "문장위치"; priority := 17; category := "FLOW"; description := "주어진 문장의 위치" |} ].

(** [excelData] is [None] for a null or undefined argument. *)
Definition getQuestionTypes (excelData : option ExcelData) : list QuestionType :=
  match excelData with
  | None => getDefaultQuestionTypes
  | Some d =>
      match questionTypes d with
      | None => getDefaultQuestionTypes
      | Some l => l
      end
  end.

Definition getTypeRequirements (excelData : option ExcelData) (typeId : string)
  : list Requirement :=
  match excelData with
  | None => []
  | Some d =>
      match typeRequirements d with
      | None => []
      | Some l => List.filter (fun r => String.eqb (req_type_id r) typeId) l
      end
  end.

(** ** Condition evaluation (eligibilityService.js) *)

Definition normalizeValue (v : value) : value :=
  match v with
  | VBool b => VBool b
  | VNum n => VNum n
  | _ =>
      let strValue := trim (toLowerCase (ToString v)) in
      if String.eqb strValue "true" || String.eqb strValue "y" || String.eqb strValue "yes"
      then VBool true
      else if String.eqb strValue "false" || String.eqb strValue "n" || String.eqb strValue "no"
      then VBool false
      else
        let numValue := ToNumber v in
        if negb (num_isNaN numValue) && negb (String.eqb strValue "")
        then VNum numValue
        else VStr strValue
  end.

(** The list tested by [in] and [not_in]. *)
Definition valueList (normalizedValue : value) : list value :=
  match normalizedValue with
  | VArr l => l
  | _ => List.map (fun v => VStr (trim v)) (split_on "," (ToString normalizedValue))
  end.

(** *** Plain objects

    The members every plain object inherits from [Object.prototype]: the
    methods, which are functions, and [__proto__], which reads as
    [Object.prototype] itself.  The strings are what the conversion to a
    string gives for them under Node. *)
Definition objectPrototypeMethods : list string :=
  ["__defineGetter__"; "__defineSetter__"; "hasOwnProperty"; "__lookupGetter__";
   "__lookupSetter__"; "isPrototypeOf"; "propertyIsEnumerable"; "toString";
   "valueOf"; "toLocaleString"].

Definition nativeFunction (name : string) : value :=
  VObject (String.append "function " (String.append name "() { [native code] }")).

Definition inheritedMember (k : string) : option value :=
  if String.eqb k "__proto__" then Some (VObject "[object Object]")
  else if String.eqb k "constructor" then Some (nativeFunction "Object")
  else if existsb (String.eqb k) objectPrototypeMethods then Some (nativeFunction k)
  else None.

Definition isInherited (k : string) : bool :=
  match inheritedMember k with Some _ => true | None => false end.

(** [object[k] = v] for a primitive [v]: the setter of [__proto__] ignores
    it, any other key becomes an own key. *)
Definition setProperty {V : Type} (k : string) (v : V) (object : gmap string V)
  : gmap string V :=
  if String.eqb k "__proto__" then object else <[k := v]> object.

(** [features[feature]]: the own key, else the inherited member, else
    undefined. *)
Definition getFeature (features : gmap string value) (k : string) : value :=
  match features !! k with
  | Some v => v
  | None => default VUndefined (inheritedMember k)
  end.

(** The [switch] over the operator, on the two normalized values. *)
Definition compareNormalized (operator : string)
    (normalizedFeature normalizedValue : value) : bool :=
  if String.eqb operator "=" || String.eqb operator "==" then
    strict_eq normalizedFeature normalizedValue
  else if String.eqb operator "!=" || String.eqb operator "<>" then
    negb (strict_eq normalizedFeature normalizedValue)
  else if String.eqb operator ">" then js_greater normalizedFeature normalizedValue
  else if String.eqb operator "<" then js_less normalizedFeature normalizedValue
  else if String.eqb operator ">=" then js_greater_eq normalizedFeature normalizedValue
  else if String.eqb operator "<=" then js_less_eq normalizedFeature normalizedValue
  else if String.eqb operator "in" then
    includes (valueList normalizedValue) (ToString normalizedFeature)
  else if String.eqb operator "not_in" then
    negb (includes (valueList normalizedValue) (ToString normalizedFeature))
  else true.

Definition evaluateCondition (features : gmap string value)
    (feature operator : string) (v : value) : bool :=
  let featureValue := getFeature features feature in
  match featureValue with
  | VUndefined | VNull => false
  | _ => compareNormalized operator (normalizeValue featureValue) (normalizeValue v)
  end.

Definition meets (features : gmap string value) (req : Requirement) : bool :=
  evaluateCondition features (feature req) (operator req) (value_ req).

(** ** First filter *)

Definition calculateEligibility (excelData : option ExcelData)
    (textFeatures : gmap string value) : gmap string bool :=
  let questionTypes := getQuestionTypes excelData in
  fold_left
    (fun (eligibility : gmap string bool) type =>
       let typeId := type_id type in
       let requirements := getTypeRequirements excelData typeId in
       if (length requirements =? 0)%nat then setProperty typeId true eligibility
       else setProperty typeId (forallb (meets textFeatures) requirements) eligibility)
    questionTypes ∅.

(** ** Second filter *)

(** The options object; [maxTypes] is [None] when the property is missing
    (or the whole argument is, which then defaults to the empty object). *)
Record Options := { maxTypes : option Z }.

Definition basicTypes : list string := ["R_MAIN"; "R_DETAIL"].

(** [eligibility[id]] used as a condition: the own boolean, else whether
    the object inherits a member of that name (an object, so truthy). *)
Definition isEligible (eligibility : gmap string bool) (id : string) : bool :=
  match eligibility !! id with
  | Some b => b
  | None => isInherited id
  end.

(** Comparator of steps 2 and 4: [(a, b) => a.priority - b.priority]. *)
Definition byPriority (a b : QuestionType) : Z := priority a - priority b.

(** Step 2, the rules for an evaluative tone. *)
Definition applyTonePolicy (textFeatures : gmap string value)
    (eligibleTypes : list QuestionType) : list QuestionType :=
  if strict_eq (getFeature textFeatures "tone") (VStr "evaluative") then
    let eligibleTypes :=
      List.filter (fun type => negb (startsWith (type_id type) "R_FLOW_")) eligibleTypes in
    let inferTypes :=
      List.filter (fun type => startsWith (type_id type) "R_INFER_") eligibleTypes in
    if (1 <? length inferTypes)%nat then
      match js_sort byPriority inferTypes with
      | bestInfer :: _ =>
          List.filter
            (fun type => negb (startsWith (type_id type) "R_INFER_")
                         || String.eqb (type_id type) (type_id bestInfer))
            eligibleTypes
      | [] => eligibleTypes
      end
    else eligibleTypes
  else eligibleTypes.

(** Step 3, the loop over the basic types. *)
Definition addBasicTypes (eligibility : gmap string bool) : StrSet.t :=
  fold_left
    (fun finalTypeSet basicTypeId =>
       if isEligible eligibility basicTypeId
       then StrSet.add basicTypeId finalTypeSet
       else finalTypeSet)
    basicTypes StrSet.empty.

(** Step 4, the loop with its [break]. *)
Fixpoint fillToCapacity (maxTypes : Z) (sortedTypes : list QuestionType)
    (finalTypeSet : StrSet.t) : StrSet.t :=
  match sortedTypes with
  | [] => finalTypeSet
  | type :: rest =>
      if maxTypes <=? StrSet.size finalTypeSet then finalTypeSet
      else fillToCapacity maxTypes rest (StrSet.add (type_id type) finalTypeSet)
  end.

(** [new Map(questionTypes.map(t => [t.type_id, t]))]: a later entry with
    the same id replaces the earlier one. *)
Definition makeTypeMap (questionTypes : list QuestionType) : gmap string QuestionType :=
  fold_left (fun m t => <[type_id t := t]> m) questionTypes ∅.

(** [typeMap.get(id)?.priority || 99] *)
Definition priorityOr99 (typeMap : gmap string QuestionType) (id : string) : Z :=
  match typeMap !! id with
  | Some type => if priority type =? 0 then 99 else priority type
  | None => 99
  end.

(** Comparator of step 5. *)
Definition finalOrder (typeMap : gmap string QuestionType) (a b : string) : Z :=
  priorityOr99 typeMap a - priorityOr99 typeMap b.

Definition decideFinalTypes (excelData : option ExcelData)
    (textFeatures : gmap string value) (eligibility : gmap string bool)
    (options : Options) : list string :=
  let maxTypes := default 5 (maxTypes options) in
  let questionTypes := getQuestionTypes excelData in
  (* 1 *)
  let eligibleTypes :=
    List.filter (fun type => isEligible eligibility (type_id type)) questionTypes in
  (* 2 *)
  let eligibleTypes := applyTonePolicy textFeatures eligibleTypes in
  (* 3 *)
  let finalTypeSet := addBasicTypes eligibility in
  (* 4 *)
  let sortedTypes :=
    js_sort byPriority
      (List.filter (fun type => negb (StrSet.has finalTypeSet (type_id type))) eligibleTypes) in
  let finalTypeSet := fillToCapacity maxTypes sortedTypes finalTypeSet in
  (* 5 *)
  let result := StrSet.to_array finalTypeSet in
  let typeMap := makeTypeMap questionTypes in
  js_sort (finalOrder typeMap) result.

End Service.

(** ** A runtime for running the service on examples

    Numbers are the integers and NaN, numerals are the decimal integer
    numerals, and the string methods act on ASCII.  It is used to evaluate
    the service on concrete inputs; no theorem depends on it. *)
Module IntRuntime.

Definition lower_ascii (c : ascii) : ascii :=
  let n := nat_of_ascii c in
  if ((65 <=? n) && (n <=? 90))%nat then ascii_of_nat (n + 32) else c.

Fixpoint lower (s : string) : string :=
  match s with
  | EmptyString => EmptyString
  | String c s' => String (lower_ascii c) (lower s')
  end.

Definition is_space (c : ascii) : bool :=
  let n := nat_of_ascii c in
  ((n =? 32) || ((9 <=? n) && (n <=? 13)))%nat.

Fixpoint trim_left (s : string) : string :=
  match s with
  | String c s' => if is_space c then trim_left s' else s
  | EmptyString => EmptyString
  end.

(** Drops the trailing white space. *)
Fixpoint trim_right (s : string) : string :=
  match s with
  | EmptyString => EmptyString
  | String c s' =>
      match trim_right s' with
      | EmptyString => if is_space c then EmptyString else String c EmptyString
      | r => String c r
      end
  end.

Definition trim_ascii (s : string) : string := trim_right (trim_left s).

Definition parse (s : string) : option Z :=
  match trim_ascii s with
  | EmptyString => Some 0
  | String "-" EmptyString => None
  | t => option_map Z.of_int (NilZero.int_of_string t)
  end.

Definition print (n : option Z) : string :=
  match n with
  | None => "NaN"
  | Some z => NilZero.string_of_int (Z.to_int z)
  end.

#[export] Instance runtime : JsRuntime := {|
  number := option Z;
  num_NaN := None;
  num_of_Z := Some;
  num_isNaN := fun n => match n with None => true | Some _ => false end;
  num_eqb := fun a b => match a, b with Some x, Some y => x =? y | _, _ => false end;
  num_ltb := fun a b => match a, b with Some x, Some y => x <? y | _, _ => false end;
  StringToNumber := parse;
  NumberToString := print;
  toLowerCase := lower;
  trim := trim_ascii
|}.

End IntRuntime.


(** ** Notions used to state the properties *)

(** The operators the [switch] has a case for. *)
Definition supportedOperators : list string :=
  ["="; "=="; "!="; "<>"; ">"; "<"; ">="; "<="; "in"; "not_in"].

(** The part of a list after the first occurrence of [a]. *)
Fixpoint after (a : string) (l : list string) : list string :=
  match l with
  | [] => []
  | x :: r => if String.eqb x a then r else after a r
  end.

(** [a] comes before [b] in [l]. *)
Definition precedes (l : list string) (a b : string) : Prop := In b (after a l).

Section Notions.
Context `{RT : JsRuntime}.

(** The priority the catalog gives an id, 99 for an id it does not have. *)
Definition catalogPriority (typeMap : gmap string QuestionType) (id : string) : Z :=
  match typeMap !! id with
  | Some type => priority type
  | None => 99
  end.

(** The basic types the eligibility map marks eligible. *)
Definition eligibleBasicTypes (eligibility : gmap string bool) : list string :=
  List.filter (isEligible eligibility) basicTypes.

Definition isFlow (id : string) : bool := startsWith id "R_FLOW_".
Definition isInfer (id : string) : bool := startsWith id "R_INFER_".


End Notions.

(** ** The whole process (eligibilityService.js) *)

Section Orchestrator.
Context `{RT : JsRuntime}.

(** An entry of [typeDetails]: the catalog record of the id, or the object
    [{ type_id }] when the type map has none. *)
Inductive TypeDetail : Type :=
| CatalogType (type : QuestionType)
| IdOnly (typeId : string).

Definition detailId (x : TypeDetail) : string :=
  match x with
  | CatalogType type => type_id type
  | IdOnly typeId => typeId
  end.

Record Determination := {
  eligibility : gmap string bool;
  finalTypes : list string;
  typeDetails : list TypeDetail
}.

Definition determineQuestionTypes (excelData : option ExcelData)
    (textFeatures : gmap string value) (options : Options) : Determination :=
  let eligibility := calculateEligibility excelData textFeatures in
  let finalTypes := decideFinalTypes excelData textFeatures eligibility options in
  let questionTypes := getQuestionTypes excelData in
  let typeMap := makeTypeMap questionTypes in
  let typeDetails :=
    List.map (fun typeId => match typeMap !! typeId with
                            | Some type => CatalogType type
                            | None => IdOnly typeId
                            end) finalTypes in
  {| eligibility := eligibility; finalTypes := finalTypes; typeDetails := typeDetails |}.

End Orchestrator.

(** ** Example inputs *)
Module Examples.
Import IntRuntime.

Definition mkType (id : string) (p : Z) : QuestionType :=
  {| type_id := id; name := id; priority := p; category := "OTHER"; description := "" |}.

Definition catalog (l : list QuestionType) (r : list Requirement) : option ExcelData :=
  Some {| questionTypes := Some l; typeRequirements := Some r |}.

(** Every type of the built-in catalog is eligible. *)
Definition allEligible : gmap string bool :=
  fold_left (fun m t => <[type_id t := true]> m) getDefaultQuestionTypes ∅.

Definition bothBasic : gmap string bool := {[ "R_MAIN" := true; "R_DETAIL" := true ]}.

Definition evaluative : gmap string value := {[ "tone" := VStr "evaluative" ]}.

Definition num (z : Z) : value := VNum (Some z).
Definition str (s : string) : value := VStr s.

Definition scoreAtLeast3 : Requirement :=
  {| req_type_id := "X"; feature := "score"; operator := ">="; value_ := num 3 |}.

End Examples.

(** * Properties *)

(** ** The sort *)
Section SortFacts.
Context {A : Type} (cmp : A -> A -> Z).

Lemma sort_insert_perm (x : A) (l : list A) :
  Permutation (sort_insert cmp x l) (x :: l).
Proof.
  induction l as [|y l IH]; simpl; [reflexivity|].
  destruct (cmp x y <=? 0); [reflexivity|].
  rewrite IH. apply perm_swap.
Qed.

Lemma js_sort_perm (l : list A) : Permutation (js_sort cmp l) l.
Proof.
  induction l as [|x l IH]; simpl; [reflexivity|].
  rewrite sort_insert_perm. now constructor.
Qed.

Lemma js_sort_length (l : list A) : length (js_sort cmp l) = length l.
Proof. apply Permutation_length, js_sort_perm. Qed.

Lemma js_sort_In (x : A) (l : list A) : In x (js_sort cmp l) <-> In x l.
Proof.
  split; apply Permutation_in; [|symmetry]; apply js_sort_perm.
Qed.

Lemma js_sort_NoDup (l : list A) : List.NoDup l -> List.NoDup (js_sort cmp l).
Proof. apply Permutation_NoDup. symmetry. apply js_sort_perm. Qed.

(** A comparator that subtracts keys sorts by key. *)
Context (key : A -> Z) (Hcmp : forall a b, cmp a b = key a - key b).

Lemma sort_insert_sorted (x : A) (l : list A) :
  StronglySorted (fun a b => key a <= key b) l ->
  StronglySorted (fun a b => key a <= key b) (sort_insert cmp x l).
Proof.
  induction 1 as [|y l Hs IH Hy]; simpl.
  - repeat constructor.
  - destruct (Z.leb_spec (cmp x y) 0) as [Hle|Hgt]; rewrite Hcmp in *.
    + constructor; [now constructor|].
      constructor; [lia|].
      eapply List.Forall_impl; [|exact Hy]. simpl. intros; lia.
    + constructor; [exact IH|].
      eapply Permutation_Forall; [symmetry; apply sort_insert_perm|].
      constructor; [lia | exact Hy].
Qed.

Lemma js_sort_sorted (l : list A) :
  StronglySorted (fun a b => key a <= key b) (js_sort cmp l).
Proof.
  induction l as [|x l IH]; simpl; [constructor|].
  now apply sort_insert_sorted.
Qed.

Lemma js_sort_head_min (l : list A) (b : A) (r : list A) :
  js_sort cmp l = b :: r -> forall x, In x l -> key b <= key x.
Proof.
  intros Heq x Hx.
  pose proof (js_sort_sorted l) as Hs. rewrite Heq in Hs.
  apply js_sort_In in Hx. rewrite Heq in Hx.
  inversion Hs as [|? ? _ Hall]; subst.
  destruct Hx as [<-|Hx]; [lia|].
  rewrite List.Forall_forall in Hall. now apply Hall.
Qed.

End SortFacts.

(** ** The set of ids *)

Lemma has_In (s : StrSet.t) (x : string) : StrSet.has s x = true <-> In x s.
Proof.
  unfold StrSet.has. rewrite existsb_exists. split.
  - intros (y & Hy & Heq). apply String.eqb_eq in Heq. now subst.
  - intros Hx. exists x. split; [exact Hx | apply String.eqb_refl].
Qed.

Lemma add_In (x y : string) (s : StrSet.t) :
  In y (StrSet.add x s) <-> y = x \/ In y s.
Proof.
  unfold StrSet.add. destruct (StrSet.has s x) eqn:Hh.
  - apply has_In in Hh. split; [now right | now intros [->|]].
  - rewrite in_app_iff. simpl. intuition.
Qed.

Lemma add_NoDup (x : string) (s : StrSet.t) :
  List.NoDup s -> List.NoDup (StrSet.add x s).
Proof.
  intros Hs. unfold StrSet.add. destruct (StrSet.has s x) eqn:Hh; [exact Hs|].
  apply List.NoDup_app; [exact Hs | repeat constructor; simpl; tauto |].
  intros y Hy [<-|[]]. apply has_In in Hy. congruence.
Qed.

Lemma add_size (x : string) (s : StrSet.t) :
  StrSet.size s <= StrSet.size (StrSet.add x s) <= StrSet.size s + 1.
Proof.
  unfold StrSet.add, StrSet.size. destruct (StrSet.has s x).
  - lia.
  - rewrite length_app. simpl. lia.
Qed.

(** ** Order of appearance *)

Lemma sorted_precedes (key : string -> Z) (l : list string) (a b : string) :
  StronglySorted (fun x y => key x <= key y) l ->
  In a l -> In b l -> key a < key b -> precedes l a b.
Proof.
  unfold precedes. induction 1 as [|x r Hs IH Hx]; intros Ha Hb Hlt; [destruct Ha|].
  simpl. destruct (String.eqb_spec x a) as [->|Hne].
  - destruct Hb as [->|Hb]; [lia | exact Hb].
  - destruct Ha as [Ha|Ha]; [congruence|].
    destruct Hb as [<-|Hb]; [|now apply IH].
    rewrite List.Forall_forall in Hx. specialize (Hx a Ha). lia.
Qed.

(** ** Prefixes *)

Lemma startsWith_app (s p : string) :
  startsWith s p = true <-> exists r, s = String.append p r.
Proof.
  revert s. induction p as [|c p IH]; intros s; simpl.
  - split; [eauto | reflexivity].
  - destruct s as [|d s].
    + split; [discriminate | intros [r Hr]; discriminate].
    + rewrite andb_true_iff, IH, Ascii.eqb_eq. split.
      * intros [-> [r ->]]. now exists r.
      * intros [r Hr]. injection Hr as -> ->. eauto.
Qed.

Lemma infer_not_flow (id : string) : isInfer id = true -> isFlow id = false.
Proof.
  unfold isInfer, isFlow. intros H. apply startsWith_app in H as [r ->]. reflexivity.
Qed.

Section EvaluatorFacts.
Context `{RT : JsRuntime}.

(** ** Condition evaluation *)

Lemma normalizeValue_scalar (v : value) :
  match normalizeValue v with
  | VBool _ | VNum _ | VStr _ => True
  | _ => False
  end.
Proof.
  unfold normalizeValue.
  destruct v; try exact I;
    repeat match goal with |- context [if ?c then _ else _] => destruct c end; exact I.
Qed.

Lemma inheritedMember_object (k : string) (v : value) :
  inheritedMember k = Some v -> exists repr, v = VObject repr.
Proof.
  unfold inheritedMember, nativeFunction.
  repeat match goal with |- context [if ?c then _ else _] => destruct c end;
    intros [= <-]; eauto.
Qed.

Lemma getFeature_own (features : gmap string value) (k : string) (x : value) :
  features !! k = Some x -> getFeature features k = x.
Proof. intros H. unfold getFeature. now rewrite H. Qed.

Lemma getFeature_agree (f f' : gmap string value) (k : string) :
  f !! k = f' !! k -> getFeature f k = getFeature f' k.
Proof. intros H. unfold getFeature. now rewrite H. Qed.

(** What the guard of [evaluateCondition] does ensure: a condition on a
    feature that the record does not have and that is not the name of an
    inherited member, or that the record has with the value null, is not
    satisfied, whatever the operator and the rule value. *)
Lemma missing_feature_unsatisfied
    (features : gmap string value) (feature operator : string) (v : value) :
  (features !! feature = None /\ isInherited feature = false)
  \/ features !! feature = Some VNull ->
  evaluateCondition features feature operator v = false.
Proof.
  intros [[H Hi]|H]; unfold evaluateCondition, getFeature; rewrite H; [|reflexivity].
  unfold isInherited in Hi. destruct (inheritedMember feature); [discriminate|reflexivity].
Qed.

(** For the name of an inherited member the guard does not fire: the
    feature reads as an object, and an operator the [switch] does not know
    lets it pass. *)
Lemma inherited_feature_passes_guard
    (features : gmap string value) (feature operator : string) (v : value) :
  features !! feature = None -> isInherited feature = true ->
  ~ In operator supportedOperators ->
  evaluateCondition features feature operator v = true.
Proof.
  intros H Hi Hop. unfold evaluateCondition, getFeature. rewrite H.
  unfold isInherited in Hi.
  destruct (inheritedMember feature) as [x|] eqn:Hx; [|discriminate].
  apply inheritedMember_object in Hx as [repr ->]. simpl.
  unfold compareNormalized.
  repeat match goal with
    | |- context [String.eqb operator ?s] =>
        destruct (String.eqb_spec operator s) as [->|_];
        [exfalso; apply Hop; simpl; tauto|]
    end.
  reflexivity.
Qed.

Lemma evaluateCondition_present
    (features : gmap string value) (feature operator : string) (v x : value) :
  features !! feature = Some x -> x <> VNull -> x <> VUndefined ->
  evaluateCondition features feature operator v
  = compareNormalized operator (normalizeValue x) (normalizeValue v).
Proof.
  intros H Hn Hu. unfold evaluateCondition. rewrite (getFeature_own _ _ _ H).
  destruct x; congruence.
Qed.

(** C7: on a feature that is present with a value (not null, not
    undefined), a condition whose operator is none of the supported ones
    is evaluated without failure, to true. *)
Theorem unknown_operator_passes
    (features : gmap string value) (feature operator : string) (v x : value) :
  features !! feature = Some x -> x <> VNull -> x <> VUndefined ->
  ~ In operator supportedOperators ->
  evaluateCondition features feature operator v = true.
Proof.
  intros H Hn Hu Hop.
  rewrite (evaluateCondition_present _ _ _ _ x) by assumption.
  unfold compareNormalized.
  repeat match goal with
    | |- context [String.eqb operator ?s] =>
        destruct (String.eqb_spec operator s) as [->|_];
        [exfalso; apply Hop; simpl; tauto|]
    end.
  reflexivity.
Qed.

(** C8: on a feature that is present with a value, [in] and [not_in]
    give opposite answers for the same rule value. *)
Theorem in_not_in_complement
    (features : gmap string value) (feature : string) (v x : value) :
  features !! feature = Some x -> x <> VNull -> x <> VUndefined ->
  evaluateCondition features feature "in" v
  = negb (evaluateCondition features feature "not_in" v).
Proof.
  intros H Hn Hu.
  rewrite !(evaluateCondition_present _ _ _ _ x) by assumption.
  unfold compareNormalized. simpl. now rewrite negb_involutive.
Qed.

(** ** First filter *)

Lemma setProperty_lookup {V : Type} (k id : string) (v : V) (m : gmap string V) :
  setProperty k v m !! id
  = if String.eqb id "__proto__" then m !! id
    else if String.eqb k id then Some v else m !! id.
Proof.
  unfold setProperty.
  destruct (String.eqb_spec k "__proto__") as [->|Hk].
  - destruct (String.eqb_spec id "__proto__") as [->|Hid]; [reflexivity|].
    destruct (String.eqb_spec "__proto__" id); [congruence | reflexivity].
  - destruct (String.eqb_spec id "__proto__") as [->|Hid].
    + now apply lookup_insert_ne.
    + destruct (String.eqb_spec k id) as [<-|Hne].
      * apply lookup_insert_eq.
      * now apply lookup_insert_ne.
Qed.

Lemma eligibility_step_lookup (d : option ExcelData) (f : gmap string value)
    (l : list QuestionType) (acc : gmap string bool) (id : string) :
  let step := fun (eligibility : gmap string bool) type =>
    let typeId := type_id type in
    let requirements := getTypeRequirements d typeId in
    if (length requirements =? 0)%nat then setProperty typeId true eligibility
    else setProperty typeId (forallb (meets f) requirements) eligibility in
  fold_left step l acc !! id
  = if String.eqb id "__proto__" then acc !! id
    else if existsb (fun t => String.eqb (type_id t) id) l
    then Some (forallb (meets f) (getTypeRequirements d id))
    else acc !! id.
Proof.
  intros step. revert acc. induction l as [|t l IH]; intros acc.
  { simpl. now destruct (String.eqb id "__proto__"). }
  simpl. rewrite IH.
  assert (Hstep : step acc t
                  = setProperty (type_id t)
                      (forallb (meets f) (getTypeRequirements d (type_id t))) acc).
  { unfold step. simpl.
    destruct (getTypeRequirements d (type_id t)) eqn:Hr; reflexivity. }
  rewrite Hstep, setProperty_lookup.
  destruct (String.eqb id "__proto__"); [reflexivity|].
  destruct (existsb _ l); [now rewrite orb_true_r|]. rewrite orb_false_r.
  destruct (String.eqb_spec (type_id t) id) as [<-|Hne]; reflexivity.
Qed.

(** What [calculateEligibility] does ensure: a type id of the catalog
    other than [__proto__] gets the conjunction of [evaluateCondition] over
    the requirements of that type, and is eligible for every attribute
    record when the type has no requirements. *)
Lemma calculateEligibility_conjunction
    (d : option ExcelData) (f : gmap string value) (t : QuestionType) :
  In t (getQuestionTypes d) -> type_id t <> "__proto__" ->
  calculateEligibility d f !! type_id t
  = Some (forallb (fun req => evaluateCondition f (feature req) (operator req) (value_ req))
            (getTypeRequirements d (type_id t)))
  /\ (getTypeRequirements d (type_id t) = [] ->
      forall f', calculateEligibility d f' !! type_id t = Some true).
Proof.
  intros Ht Hp.
  assert (Hex : existsb (fun t' => String.eqb (type_id t') (type_id t))
                  (getQuestionTypes d) = true).
  { apply existsb_exists. exists t. split; [exact Ht | apply String.eqb_refl]. }
  apply String.eqb_neq in Hp.
  split.
  - unfold calculateEligibility. rewrite eligibility_step_lookup, Hp, Hex. reflexivity.
  - intros Hr f'. unfold calculateEligibility.
    rewrite eligibility_step_lookup, Hp, Hex, Hr. reflexivity.
Qed.

(** The type id [__proto__] never becomes an own key of the map, so the
    selector reads it as eligible whatever its requirements say. *)
Lemma proto_never_recorded (d : option ExcelData) (f : gmap string value) :
  calculateEligibility d f !! "__proto__" = None
  /\ isEligible (calculateEligibility d f) "__proto__" = true.
Proof.
  assert (H : calculateEligibility d f !! "__proto__" = None).
  { unfold calculateEligibility. rewrite eligibility_step_lookup. simpl.
    apply lookup_empty. }
  split; [exact H|]. unfold isEligible. rewrite H. reflexivity.
Qed.

End EvaluatorFacts.

Section SelectorFacts.
Context `{RT : JsRuntime}.

(** ** Steps of the second filter *)

Lemma isEligible_spec (e : gmap string bool) (id : string) :
  isEligible e id = true
  <-> e !! id = Some true \/ (e !! id = None /\ isInherited id = true).
Proof.
  unfold isEligible. destruct (e !! id) as [[]|]; split; intuition congruence.
Qed.

Lemma isEligible_own (e : gmap string bool) (id : string) :
  e !! id = Some true -> isEligible e id = true.
Proof. intros H. apply isEligible_spec. now left. Qed.

Lemma isEligible_true (e : gmap string bool) (id : string) :
  isInherited id = false ->
  isEligible e id = true <-> e !! id = Some true.
Proof.
  intros Hi. rewrite isEligible_spec. split; [|now left].
  intros [H|[_ H]]; [exact H | congruence].
Qed.

Lemma basic_not_inherited (id : string) : In id basicTypes -> isInherited id = false.
Proof. intros [<-|[<-|[]]]; reflexivity. Qed.

Lemma addBasicTypes_eq (e : gmap string bool) : addBasicTypes e = eligibleBasicTypes e.
Proof.
  unfold addBasicTypes, eligibleBasicTypes, basicTypes. simpl.
  destruct (isEligible e "R_MAIN"), (isEligible e "R_DETAIL"); reflexivity.
Qed.

Lemma eligibleBasicTypes_In (e : gmap string bool) (id : string) :
  In id (eligibleBasicTypes e) <-> In id basicTypes /\ e !! id = Some true.
Proof.
  unfold eligibleBasicTypes. rewrite filter_In. split; intros [Hb H]; split; auto.
  - apply isEligible_true in H; [exact H | now apply basic_not_inherited].
  - apply isEligible_true; [now apply basic_not_inherited | exact H].
Qed.

Lemma eligibleBasicTypes_NoDup (e : gmap string bool) : List.NoDup (eligibleBasicTypes e).
Proof.
  apply List.NoDup_filter. unfold basicTypes.
  repeat constructor; simpl; intuition discriminate.
Qed.

Lemma eligibleBasicTypes_length (e : gmap string bool) :
  (length (eligibleBasicTypes e) <= 2)%nat.
Proof. apply (filter_length_le (isEligible e) basicTypes). Qed.

Lemma fill_size (m : Z) (l : list QuestionType) (s : StrSet.t) :
  StrSet.size (fillToCapacity m l s) <= Z.max m (StrSet.size s).
Proof.
  revert s. induction l as [|t l IH]; intros s; simpl; [lia|].
  destruct (Z.leb_spec m (StrSet.size s)); [lia|].
  specialize (IH (StrSet.add (type_id t) s)).
  pose proof (add_size (type_id t) s). lia.
Qed.

Lemma fill_keeps (m : Z) (l : list QuestionType) (s : StrSet.t) (x : string) :
  In x s -> In x (fillToCapacity m l s).
Proof.
  revert s. induction l as [|t l IH]; intros s Hx; simpl; [exact Hx|].
  destruct (m <=? StrSet.size s); [exact Hx|].
  apply IH, add_In. now right.
Qed.

Lemma fill_In (m : Z) (l : list QuestionType) (s : StrSet.t) (x : string) :
  In x (fillToCapacity m l s) -> In x s \/ exists t, In t l /\ type_id t = x.
Proof.
  revert s. induction l as [|t l IH]; intros s; simpl; [now left|].
  destruct (m <=? StrSet.size s); [now left|].
  intros Hx. apply IH in Hx as [Hx|(t' & Ht' & <-)].
  - apply add_In in Hx as [->|Hx]; [right; exists t; auto | now left].
  - right. exists t'. auto.
Qed.

Lemma fill_NoDup (m : Z) (l : list QuestionType) (s : StrSet.t) :
  List.NoDup s -> List.NoDup (fillToCapacity m l s).
Proof.
  revert s. induction l as [|t l IH]; intros s Hs; simpl; [exact Hs|].
  destruct (m <=? StrSet.size s); [exact Hs|].
  now apply IH, add_NoDup.
Qed.

Lemma fill_nonpositive (m : Z) (l : list QuestionType) (s : StrSet.t) :
  m <= 0 -> fillToCapacity m l s = s.
Proof.
  intros Hm. destruct l as [|t l]; simpl; [reflexivity|].
  destruct (Z.leb_spec m (StrSet.size s)) as [_|Hlt]; [reflexivity|].
  unfold StrSet.size in Hlt. lia.
Qed.

(** ** The type map *)

Lemma makeTypeMap_lookup (l : list QuestionType) (id : string) :
  match makeTypeMap l !! id with
  | Some t => In t l /\ type_id t = id
  | None => forall t, In t l -> type_id t <> id
  end.
Proof.
  unfold makeTypeMap.
  assert (H : forall (acc : gmap string QuestionType),
             match acc !! id with
             | Some t => (In t l \/ acc !! id = Some t) /\ type_id t = id
             | None => True
             end ->
             match fold_left (fun m t => <[type_id t := t]> m) l acc !! id with
             | Some t => (In t l \/ acc !! id = Some t) /\ type_id t = id
             | None => acc !! id = None /\ forall t, In t l -> type_id t <> id
             end).
  { induction l as [|t l IH]; intros acc Hacc; simpl.
    - destruct (acc !! id); [exact Hacc | split; [reflexivity | intros ? []]].
    - specialize (IH (<[type_id t := t]> acc)).
      destruct (String.eqb_spec (type_id t) id) as [Heq|Hne].
      + rewrite <- Heq in *. rewrite lookup_insert_eq in IH.
        specialize (IH (conj (or_intror eq_refl) eq_refl)).
        destruct (fold_left _ l _ !! type_id t) as [t'|].
        * destruct IH as [[Hin|Ht'] Hid]; split; auto.
          injection Ht' as <-. auto.
        * destruct IH as [? _]. discriminate.
      + rewrite lookup_insert_ne in IH by exact Hne.
        assert (Hpre : match acc !! id with
                       | Some t0 => (In t0 l \/ acc !! id = Some t0) /\ type_id t0 = id
                       | None => True
                       end).
        { destruct (acc !! id); [|exact I]. destruct Hacc as [_ Hid]. auto. }
        specialize (IH Hpre).
        destruct (fold_left _ l _ !! id) as [t'|].
        * destruct IH as [[Hin|Ht'] Hid]; split; auto.
        * destruct IH as [Hn Hall]. split; [exact Hn|].
          intros t0 [<-|Hin]; auto. }
  specialize (H ∅). rewrite lookup_empty in H. specialize (H I).
  destruct (fold_left _ l ∅ !! id) as [t|].
  - destruct H as [[Hin|Hc] Hid]; [auto | discriminate].
  - apply H.
Qed.

(** ** The tone policy *)

Lemma policy_subset (f : gmap string value) (l : list QuestionType) (t : QuestionType) :
  In t (applyTonePolicy f l) -> In t l.
Proof.
  unfold applyTonePolicy.
  repeat match goal with
    | |- context [match ?x with _ => _ end] => destruct x
    end; try rewrite !filter_In; tauto.
Qed.

Lemma policy_evaluative (f : gmap string value) (l : list QuestionType) :
  f !! "tone" = Some (VStr "evaluative") ->
  applyTonePolicy f l =
    let noFlow := List.filter (fun type => negb (isFlow (type_id type))) l in
    let inferTypes := List.filter (fun type => isInfer (type_id type)) noFlow in
    if (1 <? length inferTypes)%nat then
      match js_sort byPriority inferTypes with
      | bestInfer :: _ =>
          List.filter
            (fun type => negb (isInfer (type_id type))
                         || String.eqb (type_id type) (type_id bestInfer))
            noFlow
      | [] => noFlow
      end
    else noFlow.
Proof.
  intros H. unfold applyTonePolicy. rewrite (getFeature_own _ _ _ H). reflexivity.
Qed.

Lemma policy_no_flow (f : gmap string value) (l : list QuestionType) (t : QuestionType) :
  f !! "tone" = Some (VStr "evaluative") ->
  In t (applyTonePolicy f l) -> isFlow (type_id t) = false.
Proof.
  intros H. rewrite (policy_evaluative f l H). cbv zeta.
  repeat match goal with
    | |- context [match ?x with _ => _ end] => destruct x
    end; rewrite ?filter_In, ?negb_true_iff; tauto.
Qed.

Lemma infer_in_inferTypes (l : list QuestionType) (t : QuestionType) :
  In t l -> isInfer (type_id t) = true ->
  In t (List.filter (fun type => isInfer (type_id type))
          (List.filter (fun type => negb (isFlow (type_id type))) l)).
Proof.
  intros Hin Hi. rewrite !filter_In, (infer_not_flow _ Hi). auto.
Qed.

(** What survives of the inference types has the smallest priority. *)
Lemma policy_infer_best (f : gmap string value) (l : list QuestionType) (t : QuestionType) :
  f !! "tone" = Some (VStr "evaluative") ->
  In t (applyTonePolicy f l) -> isInfer (type_id t) = true ->
  exists t0, In t0 l /\ isInfer (type_id t0) = true /\ type_id t0 = type_id t
             /\ forall t', In t' l -> isInfer (type_id t') = true -> priority t0 <= priority t'.
Proof.
  intros H. rewrite (policy_evaluative f l H). cbv zeta.
  set (noFlow := List.filter _ l).
  set (inferTypes := List.filter _ noFlow).
  destruct (Nat.ltb_spec 1 (length inferTypes)) as [Hlen|Hlen].
  - destruct (js_sort byPriority inferTypes) as [|best r] eqn:Hs.
    { apply (f_equal (@length _)) in Hs. rewrite js_sort_length in Hs. simpl in Hs. lia. }
    intros Ht Hi. apply filter_In in Ht as [_ Ht]. rewrite Hi in Ht. simpl in Ht.
    apply String.eqb_eq in Ht.
    assert (Hb : In best inferTypes).
    { apply (js_sort_In byPriority). rewrite Hs. now left. }
    pose proof Hb as Hb'. unfold inferTypes, noFlow in Hb'.
    rewrite !filter_In in Hb'. destruct Hb' as [[Hbl _] Hbi].
    exists best. repeat split; auto.
    intros t' Ht' Hi'.
    apply (js_sort_head_min byPriority priority (fun a b => eq_refl) inferTypes best r Hs).
    now apply infer_in_inferTypes.
  - intros Ht Hi.
    assert (Hin : In t l) by (apply filter_In in Ht; tauto).
    exists t. repeat split; auto.
    intros t' Ht' Hi'.
    pose proof (infer_in_inferTypes l t Hin Hi) as H1.
    pose proof (infer_in_inferTypes l t' Ht' Hi') as H2.
    fold noFlow in H1, H2. fold inferTypes in H1, H2.
    destruct inferTypes as [|a [|b r]]; simpl in *; [tauto| |lia].
    destruct H1 as [<-|[]], H2 as [<-|[]]. lia.
Qed.

(** All surviving inference types carry one id. *)
Lemma policy_infer_unique (f : gmap string value) (l : list QuestionType) :
  f !! "tone" = Some (VStr "evaluative") ->
  exists x, forall t, In t (applyTonePolicy f l) -> isInfer (type_id t) = true -> type_id t = x.
Proof.
  intros H. rewrite (policy_evaluative f l H). cbv zeta.
  set (noFlow := List.filter _ l).
  set (inferTypes := List.filter _ noFlow).
  destruct (Nat.ltb_spec 1 (length inferTypes)) as [Hlen|Hlen].
  - destruct (js_sort byPriority inferTypes) as [|best r] eqn:Hs.
    { apply (f_equal (@length _)) in Hs. rewrite js_sort_length in Hs. simpl in Hs. lia. }
    exists (type_id best). intros t Ht Hi.
    apply filter_In in Ht as [_ Ht]. rewrite Hi in Ht. simpl in Ht.
    now apply String.eqb_eq in Ht.
  - assert (Hall : forall t, In t noFlow -> isInfer (type_id t) = true -> In t inferTypes).
    { intros t Ht Hi. apply filter_In. auto. }
    destruct inferTypes as [|a [|b r]]; simpl in Hlen; [| |lia].
    + exists "". intros t Ht Hi. destruct (Hall t Ht Hi).
    + exists (type_id a). intros t Ht Hi. destruct (Hall t Ht Hi) as [<-|[]]. reflexivity.
Qed.

(** ** The final list *)

Lemma final_In (d : option ExcelData) (f : gmap string value) (e : gmap string bool)
    (o : Options) (id : string) :
  In id (decideFinalTypes d f e o) ->
  In id (eligibleBasicTypes e)
  \/ exists t, In t (applyTonePolicy f
                      (List.filter (fun type => isEligible e (type_id type))
                         (getQuestionTypes d)))
               /\ type_id t = id.
Proof.
  unfold decideFinalTypes, StrSet.to_array. rewrite js_sort_In. intros Hin.
  apply fill_In in Hin as [Hin|(t & Ht & <-)].
  - left. now rewrite <- addBasicTypes_eq.
  - right. exists t. split; [|reflexivity].
    apply js_sort_In, filter_In in Ht. tauto.
Qed.

Lemma final_basic (d : option ExcelData) (f : gmap string value) (e : gmap string bool)
    (o : Options) (id : string) :
  In id (eligibleBasicTypes e) -> In id (decideFinalTypes d f e o).
Proof.
  intros Hin. unfold decideFinalTypes, StrSet.to_array.
  apply js_sort_In, fill_keeps. now rewrite addBasicTypes_eq.
Qed.

Lemma final_NoDup (d : option ExcelData) (f : gmap string value) (e : gmap string bool)
    (o : Options) :
  List.NoDup (decideFinalTypes d f e o).
Proof.
  unfold decideFinalTypes, StrSet.to_array.
  apply js_sort_NoDup, fill_NoDup. rewrite addBasicTypes_eq.
  apply eligibleBasicTypes_NoDup.
Qed.

Lemma final_sorted (d : option ExcelData) (f : gmap string value) (e : gmap string bool)
    (o : Options) :
  StronglySorted
    (fun a b => priorityOr99 (makeTypeMap (getQuestionTypes d)) a
                <= priorityOr99 (makeTypeMap (getQuestionTypes d)) b)
    (decideFinalTypes d f e o).
Proof.
  unfold decideFinalTypes.
  apply (js_sort_sorted _ (priorityOr99 (makeTypeMap (getQuestionTypes d)))).
  reflexivity.
Qed.

Lemma StronglySorted_impl {A : Type} (R1 R2 : A -> A -> Prop) (l : list A) :
  (forall a b, R1 a b -> R2 a b) -> StronglySorted R1 l -> StronglySorted R2 l.
Proof.
  intros HR. induction 1 as [|x l Hs IH Hx]; constructor; [exact IH|].
  eapply List.Forall_impl; [|exact Hx]. apply HR.
Qed.

Lemma one_id_filter_length (P : string -> bool) (l : list string) (x : string) :
  List.NoDup l -> (forall y, In y l -> P y = true -> y = x) ->
  (length (List.filter P l) <= 1)%nat.
Proof.
  intros Hnd Hall.
  assert (Hf : List.NoDup (List.filter P l)) by now apply List.NoDup_filter.
  assert (Hx : forall y, In y (List.filter P l) -> y = x).
  { intros y Hy. apply filter_In in Hy as [? ?]. auto. }
  destruct (List.filter P l) as [|a [|b r]]; simpl; [lia|lia|].
  exfalso. inversion Hf as [|? ? Hna _]; subst. apply Hna.
  rewrite (Hx a), (Hx b); simpl; auto.
Qed.

End SelectorFacts.

Section SelectorClaims.
Context `{RT : JsRuntime}.

(** C1 (as the code has it): the final list has at most [maxTypes] entries
    (5 when the option is missing), unless more basic types than that are
    eligible: the basic types are added before the capacity is looked at,
    so the bound is the larger of the capacity and the number of eligible
    basic types, which is at most 2. *)
Theorem final_list_length
    (d : option ExcelData) (f : gmap string value) (e : gmap string bool) (o : Options) :
  Z.of_nat (length (decideFinalTypes d f e o))
  <= Z.max (default 5 (maxTypes o)) (Z.of_nat (length (eligibleBasicTypes e)))
  /\ (length (eligibleBasicTypes e) <= 2)%nat.
Proof.
  split; [|apply eligibleBasicTypes_length].
  unfold decideFinalTypes, StrSet.to_array. rewrite js_sort_length.
  rewrite <- addBasicTypes_eq. apply fill_size.
Qed.

(** C2: each of the two basic types, R_MAIN and R_DETAIL, is in the final
    list exactly when the eligibility map marks it eligible, for every
    catalog, attribute record (an evaluative tone included) and capacity. *)
Theorem basic_types_iff_eligible
    (d : option ExcelData) (f : gmap string value) (e : gmap string bool) (o : Options) :
  (In "R_MAIN" (decideFinalTypes d f e o) <-> e !! "R_MAIN" = Some true)
  /\ (In "R_DETAIL" (decideFinalTypes d f e o) <-> e !! "R_DETAIL" = Some true).
Proof.
  assert (H : forall id, In id basicTypes ->
                         In id (decideFinalTypes d f e o) <-> e !! id = Some true).
  { intros id Hid. split.
    - intros Hin. apply final_In in Hin as [Hin|(t & Ht & <-)].
      + now apply eligibleBasicTypes_In in Hin.
      + apply policy_subset, filter_In in Ht as [_ He].
        apply isEligible_true in He; [exact He | now apply basic_not_inherited].
    - intros He. apply final_basic, eligibleBasicTypes_In. auto. }
  split; apply H; simpl; auto.
Qed.

(** C6 (as the code has it): a missing capacity is the capacity 5.  A
    capacity that is zero or negative is not replaced: the fill adds
    nothing, and the list is the eligible basic types in the final
    order. *)
Theorem default_capacity
    (d : option ExcelData) (f : gmap string value) (e : gmap string bool) (n : Z) :
  n <= 0 ->
  decideFinalTypes d f e {| maxTypes := None |}
  = decideFinalTypes d f e {| maxTypes := Some 5 |}
  /\ decideFinalTypes d f e {| maxTypes := Some n |}
     = js_sort (finalOrder (makeTypeMap (getQuestionTypes d))) (eligibleBasicTypes e).
Proof.
  intros Hn. split; [reflexivity|].
  unfold decideFinalTypes, StrSet.to_array. simpl.
  rewrite fill_nonpositive by exact Hn. now rewrite addBasicTypes_eq.
Qed.

Lemma priorityOr99_nonzero (l : list QuestionType) (id : string) :
  (forall t, In t l -> priority t <> 0) ->
  priorityOr99 (makeTypeMap l) id = catalogPriority (makeTypeMap l) id.
Proof.
  intros Hnz. unfold priorityOr99, catalogPriority.
  pose proof (makeTypeMap_lookup l id) as Hl.
  destruct (makeTypeMap l !! id) as [t|]; [|reflexivity].
  destruct Hl as [Hin _]. apply Hnz in Hin.
  destruct (Z.eqb_spec (priority t) 0); [contradiction | reflexivity].
Qed.

(** C9 (as the code has it): when no catalog entry has priority 0, the
    final list is in ascending order of the catalog priority of its ids,
    an id the catalog does not have counting as 99; such an id comes after
    every id of the list whose priority is below 99. *)
Theorem final_list_sorted_by_priority
    (d : option ExcelData) (f : gmap string value) (e : gmap string bool) (o : Options) :
  (forall t, In t (getQuestionTypes d) -> priority t <> 0) ->
  let typeMap := makeTypeMap (getQuestionTypes d) in
  let r := decideFinalTypes d f e o in
  StronglySorted (fun a b => catalogPriority typeMap a <= catalogPriority typeMap b) r
  /\ (forall a b, In a r -> In b r -> typeMap !! a = None ->
                  catalogPriority typeMap b < 99 -> precedes r b a).
Proof.
  intros Hnz typeMap r.
  assert (Hs : StronglySorted
                 (fun a b => catalogPriority typeMap a <= catalogPriority typeMap b) r).
  { eapply StronglySorted_impl; [|apply final_sorted].
    intros a b. unfold typeMap. now rewrite !priorityOr99_nonzero. }
  split; [exact Hs|].
  intros a b Ha Hb Hnone Hlt.
  apply (sorted_precedes (catalogPriority typeMap)); auto.
  unfold catalogPriority at 2. now rewrite Hnone.
Qed.


End SelectorClaims.

(** * Further properties of the service *)

Section EvaluatorMore.
Context `{RT : JsRuntime}.

(** ** Operators *)

Lemma valueList_normalized (v : value) :
  valueList (normalizeValue v)
  = List.map (fun s => VStr (trim s)) (split_on "," (ToString (normalizeValue v))).
Proof.
  pose proof (normalizeValue_scalar v) as H.
  destruct (normalizeValue v); try contradiction; reflexivity.
Qed.

(** X1: [==] is [=] and [<>] is [!=] on every input, and on a feature that
    is present with a value the inequality operators answer the opposite
    of the equality operators. *)
Theorem equality_operators
    (features : gmap string value) (feature : string) (v x : value) :
  features !! feature = Some x -> x <> VNull -> x <> VUndefined ->
  (forall (fs : gmap string value) k w,
      evaluateCondition fs k "==" w = evaluateCondition fs k "=" w
      /\ evaluateCondition fs k "<>" w = evaluateCondition fs k "!=" w)
  /\ evaluateCondition features feature "!=" v
     = negb (evaluateCondition features feature "=" v).
Proof.
  intros H Hn Hu. split.
  - intros fs k w. unfold evaluateCondition.
    destruct (getFeature fs k); split; reflexivity.
  - rewrite !(evaluateCondition_present _ _ _ _ x) by assumption. reflexivity.
Qed.

(** X2: on a feature that is present with a value, [<] and [>=] never both
    hold, nor do [>] and [<=]; when the two normalized values cannot be
    compared (a NaN operand) all four operators answer false. *)
Theorem ordering_operators
    (features : gmap string value) (feature : string) (v x : value) :
  features !! feature = Some x -> x <> VNull -> x <> VUndefined ->
  let holds op := evaluateCondition features feature op v in
  (holds "<" && holds ">=" = false)
  /\ (holds ">" && holds "<=" = false)
  /\ (js_lt (normalizeValue x) (normalizeValue v) = None ->
      js_lt (normalizeValue v) (normalizeValue x) = None ->
      holds "<" = false /\ holds ">=" = false /\ holds ">" = false /\ holds "<=" = false).
Proof.
  intros H Hn Hu holds. unfold holds.
  rewrite !(evaluateCondition_present _ _ _ _ x) by assumption.
  unfold compareNormalized. simpl.
  unfold js_less, js_greater, js_less_eq, js_greater_eq.
  split; [|split].
  - destruct (js_lt (normalizeValue x) (normalizeValue v)) as [[]|]; reflexivity.
  - destruct (js_lt (normalizeValue v) (normalizeValue x)) as [[]|]; reflexivity.
  - intros -> ->. auto.
Qed.

(** X3: for [in] and [not_in] the rule value is never used as an array:
    whatever it is (an array too), the list that is searched is its
    normalized string form split at the commas, each piece trimmed. *)
Theorem in_list_is_split_string
    (features : gmap string value) (feature : string) (v x : value) :
  features !! feature = Some x -> x <> VNull -> x <> VUndefined ->
  evaluateCondition features feature "in" v
  = includes
      (List.map (fun s => VStr (trim s)) (split_on "," (ToString (normalizeValue v))))
      (ToString (normalizeValue x)).
Proof.
  intros H Hn Hu.
  rewrite (evaluateCondition_present _ _ _ _ x) by assumption.
  unfold compareNormalized. simpl. now rewrite valueList_normalized.
Qed.

(** ** The eligibility map *)

Lemma calculateEligibility_lookup
    (d : option ExcelData) (f : gmap string value) (id : string) :
  calculateEligibility d f !! id
  = if String.eqb id "__proto__" then None
    else if existsb (fun t => String.eqb (type_id t) id) (getQuestionTypes d)
    then Some (forallb (meets f) (getTypeRequirements d id))
    else None.
Proof.
  unfold calculateEligibility. now rewrite eligibility_step_lookup, lookup_empty.
Qed.

Lemma in_catalog_existsb (l : list QuestionType) (id : string) :
  existsb (fun t => String.eqb (type_id t) id) l = true
  <-> exists t, In t l /\ type_id t = id.
Proof.
  rewrite existsb_exists. split; intros (t & Ht & Hid); exists t; split; auto.
  - now apply String.eqb_eq.
  - now apply String.eqb_eq.
Qed.

Lemma eligible_in_catalog
    (d : option ExcelData) (f : gmap string value) (id : string) (b : bool) :
  calculateEligibility d f !! id = Some b ->
  exists t, In t (getQuestionTypes d) /\ type_id t = id.
Proof.
  rewrite calculateEligibility_lookup.
  destruct (String.eqb id "__proto__"); [discriminate|].
  destruct (existsb _ _) eqn:Hex; [|discriminate].
  intros _. now apply in_catalog_existsb.
Qed.

(** X4: the object returned by [calculateEligibility] has an own entry for
    exactly the type ids of the catalog other than [__proto__]; read the
    way the selector reads it, an id the catalog does not have is truthy
    exactly when it names a member that every object inherits, and
    undefined otherwise. *)
Theorem eligibility_keys_are_catalog_ids
    (d : option ExcelData) (f : gmap string value) (id : string) :
  (calculateEligibility d f !! id = None
   <-> id = "__proto__" \/ forall t, In t (getQuestionTypes d) -> type_id t <> id)
  /\ ((forall t, In t (getQuestionTypes d) -> type_id t <> id) ->
      isEligible (calculateEligibility d f) id = isInherited id).
Proof.
  assert (Hnone : (forall t, In t (getQuestionTypes d) -> type_id t <> id) ->
                  calculateEligibility d f !! id = None).
  { intros Hall. rewrite calculateEligibility_lookup.
    destruct (String.eqb id "__proto__"); [reflexivity|].
    destruct (existsb _ _) eqn:Hex; [|reflexivity].
    apply in_catalog_existsb in Hex as (t & Ht & Hid). exfalso. exact (Hall t Ht Hid). }
  split.
  - split.
    + rewrite calculateEligibility_lookup.
      destruct (String.eqb_spec id "__proto__") as [->|Hp]; [now left|].
      destruct (existsb _ _) eqn:Hex; [discriminate|].
      intros _. right. intros t Ht Hid.
      assert (Hc : existsb (fun t => String.eqb (type_id t) id) (getQuestionTypes d) = true)
        by (apply in_catalog_existsb; eauto).
      congruence.
    + intros [->|Hall]; [|now apply Hnone].
      rewrite calculateEligibility_lookup. reflexivity.
  - intros Hall. unfold isEligible. now rewrite (Hnone Hall).
Qed.

(** X5: requirements only restrict.  If a second workbook has the same
    catalog and, for every type, at least the requirements of the first,
    every type it finds eligible is eligible under the first. *)
Theorem more_requirements_fewer_eligible
    (d d' : option ExcelData) (f : gmap string value) (id : string) :
  getQuestionTypes d' = getQuestionTypes d ->
  (forall k req, In req (getTypeRequirements d k) -> In req (getTypeRequirements d' k)) ->
  calculateEligibility d' f !! id = Some true ->
  calculateEligibility d f !! id = Some true.
Proof.
  intros Hcat Hsub. rewrite !calculateEligibility_lookup, Hcat.
  destruct (String.eqb id "__proto__"); [discriminate|].
  destruct (existsb _ _); [|discriminate].
  intros H. injection H as H. f_equal.
  rewrite forallb_forall in *. intros req Hreq. apply H, Hsub, Hreq.
Qed.

Lemma forallb_agree {A : Type} (p q : A -> bool) (l : list A) :
  (forall x, In x l -> p x = q x) -> forallb p l = forallb q l.
Proof.
  induction l as [|a l IH]; intros H; simpl; [reflexivity|].
  rewrite (H a) by (now left). rewrite IH; [reflexivity|].
  intros x Hx. apply H. now right.
Qed.

Lemma evaluateCondition_frame
    (f f' : gmap string value) (k operator : string) (v : value) :
  f !! k = f' !! k ->
  evaluateCondition f k operator v = evaluateCondition f' k operator v.
Proof.
  intros H. unfold evaluateCondition. now rewrite (getFeature_agree f f' k H).
Qed.

Lemma calculateEligibility_frame
    (d : option ExcelData) (f f' : gmap string value) :
  (forall t req, In t (getQuestionTypes d) ->
                 In req (getTypeRequirements d (type_id t)) ->
                 f !! feature req = f' !! feature req) ->
  calculateEligibility d f = calculateEligibility d f'.
Proof.
  intros Hagree. apply map_eq. intros id.
  rewrite !calculateEligibility_lookup.
  destruct (String.eqb id "__proto__"); [reflexivity|].
  destruct (existsb _ _) eqn:Hex; [|reflexivity].
  apply in_catalog_existsb in Hex as (t & Ht & <-). f_equal.
  apply forallb_agree. intros req Hreq. unfold meets.
  apply evaluateCondition_frame. now apply (Hagree t).
Qed.

(** X6: the eligibility map depends on the attribute record only through
    the features that the requirements of the catalog types name: two
    records that agree on them give the same map. *)
Theorem eligibility_reads_required_features_only
    (d : option ExcelData) (f f' : gmap string value) :
  (forall t req, In t (getQuestionTypes d) ->
                 In req (getTypeRequirements d (type_id t)) ->
                 f !! feature req = f' !! feature req) ->
  calculateEligibility d f = calculateEligibility d f'.
Proof. apply calculateEligibility_frame. Qed.

End EvaluatorMore.

Section SelectorMore.
Context `{RT : JsRuntime}.

(** ** The fill loop *)

Lemma fill_mono (m m' : Z) (l : list QuestionType) (s : StrSet.t) (x : string) :
  m <= m' -> In x (fillToCapacity m l s) -> In x (fillToCapacity m' l s).
Proof.
  intros Hm. revert s. induction l as [|t l IH]; intros s; simpl; [auto|].
  destruct (Z.leb_spec m (StrSet.size s)) as [Hle|Hlt].
  - intros Hx. destruct (m' <=? StrSet.size s); [exact Hx|].
    apply fill_keeps, add_In. now right.
  - destruct (Z.leb_spec m' (StrSet.size s)); [lia|]. apply IH.
Qed.

Lemma fill_complete (m : Z) (l : list QuestionType) (s : StrSet.t) :
  StrSet.size (fillToCapacity m l s) < m ->
  forall t, In t l -> In (type_id t) (fillToCapacity m l s).
Proof.
  revert s. induction l as [|t l IH]; intros s; simpl; [intros _ ? []|].
  destruct (Z.leb_spec m (StrSet.size s)) as [Hle|Hlt]; [lia|].
  intros Hsize t' [<-|Ht'].
  - apply fill_keeps, add_In. now left.
  - now apply IH.
Qed.

(** The loop adds the ids of a front part of the list and stops. *)
Lemma fill_prefix (m : Z) (l : list QuestionType) (s : StrSet.t) :
  exists l1 l2, l = l1 ++ l2
    /\ forall x, In x (fillToCapacity m l s)
                 <-> In x s \/ exists t, In t l1 /\ type_id t = x.
Proof.
  revert s. induction l as [|t l IH]; intros s; simpl.
  - exists [], []. split; [reflexivity|]. intros x. split; [auto|].
    intros [Hx|(t & [] & _)]. exact Hx.
  - destruct (m <=? StrSet.size s).
    + exists [], (t :: l). split; [reflexivity|]. intros x. split; [auto|].
      intros [Hx|(t0 & [] & _)]. exact Hx.
    + destruct (IH (StrSet.add (type_id t) s)) as (l1 & l2 & -> & Hiff).
      exists (t :: l1), l2. split; [reflexivity|]. intros x.
      rewrite Hiff, add_In. simpl. split.
      * intros [[->|Hx]|(t0 & Ht0 & Hid)]; eauto.
      * intros [Hx|(t0 & [<-|Ht0] & Hid)]; eauto.
Qed.

Lemma sorted_app_order {A : Type} (R : A -> A -> Prop) (l1 l2 : list A) (a b : A) :
  StronglySorted R (l1 ++ l2) -> In a l1 -> In b l2 -> R a b.
Proof.
  induction l1 as [|x l1 IH]; simpl; intros Hs Ha Hb; [destruct Ha|].
  inversion Hs as [|? ? Hs' Hall]; subst.
  destruct Ha as [<-|Ha]; [|now apply IH].
  rewrite List.Forall_forall in Hall. apply Hall, in_app_iff. now right.
Qed.

(** ** The head of a sorted array *)

(** The first element after sorting is the first of the elements with the
    smallest key. *)
Lemma js_sort_head_first_min {A : Type} (key : A -> Z) (l : list A) (b : A) (r : list A) :
  js_sort (fun x y => key x - key y) l = b :: r ->
  exists l1 l2, l = l1 ++ b :: l2
    /\ (forall x, In x l1 -> key b < key x)
    /\ (forall x, In x l2 -> key b <= key x).
Proof.
  revert b r. induction l as [|x l IH]; intros b r; simpl; [discriminate|].
  destruct (js_sort (fun x y => key x - key y) l) as [|y ys] eqn:Hs; simpl.
  - intros [= <- <-].
    apply (f_equal (@length _)) in Hs. rewrite js_sort_length in Hs.
    destruct l; [|discriminate].
    exists [], []. repeat split; intros ? [].
  - destruct (IH y ys eq_refl) as (m1 & m2 & -> & H1 & H2).
    destruct (Z.leb_spec (key x - key y) 0) as [Hle|Hgt]; intros [= <- <-].
    + exists [], (m1 ++ y :: m2). split; [reflexivity|]. split; [intros ? []|].
      intros z Hz. apply in_app_iff in Hz as [Hz|[<-|Hz]].
      * specialize (H1 z Hz). lia.
      * lia.
      * specialize (H2 z Hz). lia.
    + exists (x :: m1), m2. split; [reflexivity|]. split; [|exact H2].
      intros z [<-|Hz]; [lia | now apply H1].
Qed.

(** ** The tone policy *)

Lemma tone_test (f : gmap string value) :
  strict_eq (getFeature f "tone") (VStr "evaluative") = true
  <-> f !! "tone" = Some (VStr "evaluative").
Proof.
  unfold getFeature. destruct (f !! "tone") as [v|]; simpl; [|split; discriminate].
  destruct v; simpl; try (split; discriminate).
  rewrite String.eqb_eq. split; [now intros -> | now intros [= ->]].
Qed.

Lemma policy_other_tone (f : gmap string value) (l : list QuestionType) :
  f !! "tone" <> Some (VStr "evaluative") -> applyTonePolicy f l = l.
Proof.
  intros H. unfold applyTonePolicy.
  destruct (strict_eq _ _) eqn:Ht; [|reflexivity].
  apply tone_test in Ht. contradiction.
Qed.

Lemma inferTypes_fused (e : gmap string bool) (l : list QuestionType) :
  List.filter (fun type => isInfer (type_id type))
    (List.filter (fun type => negb (isFlow (type_id type)))
       (List.filter (fun type => isEligible e (type_id type)) l))
  = List.filter (fun t => isEligible e (type_id t) && isInfer (type_id t)) l.
Proof.
  induction l as [|t l IH]; simpl; [reflexivity|].
  destruct (isEligible e (type_id t)); simpl; [|exact IH].
  destruct (isInfer (type_id t)) eqn:Hi.
  - rewrite (infer_not_flow _ Hi). simpl. rewrite Hi. now f_equal.
  - destruct (isFlow (type_id t)); simpl; rewrite ?Hi; exact IH.
Qed.

Lemma policy_infer_first_min (f : gmap string value) (l : list QuestionType)
    (t : QuestionType) :
  f !! "tone" = Some (VStr "evaluative") ->
  In t (applyTonePolicy f l) -> isInfer (type_id t) = true ->
  exists l1 t0 l2,
    List.filter (fun type => isInfer (type_id type))
      (List.filter (fun type => negb (isFlow (type_id type))) l) = l1 ++ t0 :: l2
    /\ type_id t0 = type_id t
    /\ (forall x, In x l1 -> priority t0 < priority x)
    /\ (forall x, In x l2 -> priority t0 <= priority x).
Proof.
  intros H. rewrite (policy_evaluative f l H). cbv zeta.
  set (noFlow := List.filter _ l).
  set (inferTypes := List.filter _ noFlow).
  destruct (Nat.ltb_spec 1 (length inferTypes)) as [Hlen|Hlen].
  - destruct (js_sort byPriority inferTypes) as [|best r] eqn:Hs.
    { apply (f_equal (@length _)) in Hs. rewrite js_sort_length in Hs. simpl in Hs. lia. }
    intros Ht Hi. apply filter_In in Ht as [_ Ht]. rewrite Hi in Ht. simpl in Ht.
    apply String.eqb_eq in Ht.
    destruct (js_sort_head_first_min priority inferTypes best r Hs)
      as (l1 & l2 & Heq & H1 & H2).
    exists l1, best, l2. auto.
  - intros Ht Hi.
    assert (Hin : In t inferTypes) by (apply filter_In; auto).
    destruct inferTypes as [|a [|b r]]; simpl in Hlen; [destruct Hin| |lia].
    destruct Hin as [<-|[]].
    exists [], a, []. repeat split; intros ? [].
Qed.

Lemma decideFinalTypes_tone_only (d : option ExcelData) (f f' : gmap string value)
    (e : gmap string bool) (o : Options) :
  f !! "tone" = f' !! "tone" ->
  decideFinalTypes d f e o = decideFinalTypes d f' e o.
Proof.
  intros H. unfold decideFinalTypes, applyTonePolicy, getFeature. now rewrite H.
Qed.

Lemma final_eligible (d : option ExcelData) (f : gmap string value) (e : gmap string bool)
    (o : Options) (id : string) :
  In id (decideFinalTypes d f e o) ->
  isEligible e id = true
  /\ (In id basicTypes \/ exists t, In t (getQuestionTypes d) /\ type_id t = id).
Proof.
  intros Hin. apply final_In in Hin as [Hin|(t & Ht & <-)].
  - apply eligibleBasicTypes_In in Hin as [Hb He].
    split; [now apply isEligible_own | now left].
  - apply policy_subset, filter_In in Ht as [Hc He]. eauto.
Qed.

(** A list shorter than the capacity has every type that passed the tone
    policy. *)
Lemma below_capacity_all_listed (d : option ExcelData) (f : gmap string value)
    (e : gmap string bool) (o : Options) (t : QuestionType) :
  Z.of_nat (length (decideFinalTypes d f e o)) < default 5 (maxTypes o) ->
  In t (applyTonePolicy f
          (List.filter (fun type => isEligible e (type_id type)) (getQuestionTypes d))) ->
  In (type_id t) (decideFinalTypes d f e o).
Proof.
  unfold decideFinalTypes, StrSet.to_array.
  rewrite js_sort_length. intros Hlen Ht. apply js_sort_In.
  destruct (StrSet.has (addBasicTypes e) (type_id t)) eqn:Hh.
  - apply fill_keeps. now apply has_In.
  - apply fill_complete; [exact Hlen|].
    apply js_sort_In, filter_In. rewrite Hh. auto.
Qed.

Lemma first_min_unique {A : Type} (key : A -> Z) (l1 : list A) (a : A) (l2 : list A)
    (m1 : list A) (b : A) (m2 : list A) :
  l1 ++ a :: l2 = m1 ++ b :: m2 ->
  (forall x, In x l1 -> key a < key x) -> (forall x, In x l2 -> key a <= key x) ->
  (forall x, In x m1 -> key b < key x) -> (forall x, In x m2 -> key b <= key x) ->
  a = b.
Proof.
  revert m1. induction l1 as [|x l1 IH]; intros m1 Heq H1 H2 G1 G2.
  - destruct m1 as [|y m1]; simpl in Heq; [congruence|].
    injection Heq as Hy Hrest. subst y.
    assert (Hin : In b l2) by (rewrite Hrest; apply in_app_iff; right; now left).
    specialize (H2 b Hin). specialize (G1 a (or_introl eq_refl)). lia.
  - destruct m1 as [|y m1]; simpl in Heq.
    + injection Heq as Hx Hrest. subst x.
      assert (Hin : In a m2) by (rewrite <- Hrest; apply in_app_iff; right; now left).
      specialize (G2 a Hin). specialize (H1 b (or_introl eq_refl)). lia.
    + injection Heq as Hx Hrest. subst y.
      apply (IH m1 Hrest); auto.
      * intros z Hz. apply H1. now right.
      * intros z Hz. apply G1. now right.
Qed.

(** Under an evaluative tone the first of the inference types with the
    smallest priority passes the policy. *)
Lemma policy_keeps_best (f : gmap string value) (l l1 l2 : list QuestionType)
    (best : QuestionType) :
  f !! "tone" = Some (VStr "evaluative") ->
  List.filter (fun type => isInfer (type_id type))
    (List.filter (fun type => negb (isFlow (type_id type))) l) = l1 ++ best :: l2 ->
  (forall x, In x l1 -> priority best < priority x) ->
  (forall x, In x l2 -> priority best <= priority x) ->
  In best (applyTonePolicy f l).
Proof.
  intros H Heq H1 H2. rewrite (policy_evaluative f l H). cbv zeta.
  set (noFlow := List.filter _ l) in *.
  set (inferTypes := List.filter _ noFlow) in *.
  assert (Hb : In best inferTypes) by (rewrite Heq; apply in_app_iff; right; now left).
  assert (Hn : In best noFlow) by (apply filter_In in Hb; tauto).
  destruct (1 <? length inferTypes)%nat; [|exact Hn].
  destruct (js_sort byPriority inferTypes) as [|b r] eqn:Hs; [exact Hn|].
  apply filter_In. split; [exact Hn|].
  destruct (js_sort_head_first_min priority inferTypes b r Hs)
    as (m1 & m2 & Heq' & G1 & G2).
  assert (Hsame : b = best).
  { rewrite Heq in Heq'. symmetry.
    exact (first_min_unique priority l1 best l2 m1 b m2 Heq' H1 H2 G1 G2). }
  rewrite Hsame, String.eqb_refl. apply orb_true_r.
Qed.

Lemma policy_keeps_other (f : gmap string value) (l : list QuestionType)
    (t : QuestionType) :
  In t l -> isFlow (type_id t) = false -> isInfer (type_id t) = false ->
  In t (applyTonePolicy f l).
Proof.
  intros Hin Hf Hi. unfold applyTonePolicy. fold (isFlow (type_id t)) in Hf.
  repeat match goal with
    | |- context [match ?x with _ => _ end] => destruct x
    end; rewrite ?filter_In; repeat split; auto.
  - fold (isFlow (type_id t)). now rewrite Hf.
  - fold (isFlow (type_id t)). now rewrite Hf.
  - fold (isInfer (type_id t)). now rewrite Hi.
  - fold (isFlow (type_id t)). now rewrite Hf.
Qed.

End SelectorMore.

Section TonePolicy.
Context `{RT : JsRuntime}.

(** C3: for an attribute record whose tone is "evaluative", the final list
    has no id with the prefix R_FLOW_ and at most one id with the prefix
    R_INFER_, and an inference id in the list belongs to an eligible
    inference type of the smallest priority number.  When there are
    eligible inference types, one of the smallest priority number is kept
    by the policy, every inference type the policy keeps carries its id,
    and its id is in the final list unless the list has reached the
    capacity; the eligible types that are neither flow nor inference types
    all pass the policy. *)
Theorem evaluative_tone_policy
    (d : option ExcelData) (f : gmap string value) (e : gmap string bool) (o : Options) :
  f !! "tone" = Some (VStr "evaluative") ->
  let r := decideFinalTypes d f e o in
  let eligibleTypes :=
    List.filter (fun type => isEligible e (type_id type)) (getQuestionTypes d) in
  let candidates :=
    List.filter (fun t => isEligible e (type_id t) && isInfer (type_id t))
      (getQuestionTypes d) in
  (forall id, In id r -> isFlow id = false)
  /\ (length (List.filter isInfer r) <= 1)%nat
  /\ (forall id, In id r -> isInfer id = true ->
        exists t, In t candidates /\ type_id t = id
                  /\ forall t', In t' candidates -> priority t <= priority t')
  /\ (candidates <> [] ->
        exists best, In best candidates
          /\ (forall t', In t' candidates -> priority best <= priority t')
          /\ In best (applyTonePolicy f eligibleTypes)
          /\ (forall t, In t (applyTonePolicy f eligibleTypes) ->
                        isInfer (type_id t) = true -> type_id t = type_id best)
          /\ (Z.of_nat (length r) < default 5 (maxTypes o) -> In (type_id best) r))
  /\ (forall t, In t eligibleTypes -> isFlow (type_id t) = false ->
                isInfer (type_id t) = false -> In t (applyTonePolicy f eligibleTypes)).
Proof.
  intros Htone r eligibleTypes candidates.
  assert (Hbasic : forall id, In id (eligibleBasicTypes e) ->
                              isFlow id = false /\ isInfer id = false).
  { intros id Hid. apply eligibleBasicTypes_In in Hid as [Hid _].
    destruct Hid as [<-|[<-|[]]]; split; reflexivity. }
  assert (Hfused : List.filter (fun type => isInfer (type_id type))
                     (List.filter (fun type => negb (isFlow (type_id type))) eligibleTypes)
                   = candidates) by apply inferTypes_fused.
  split; [|split; [|split; [|split]]].
  - intros id Hin. apply final_In in Hin as [Hin|(t & Ht & <-)].
    + now apply Hbasic.
    + eapply policy_no_flow; eauto.
  - destruct (policy_infer_unique f eligibleTypes Htone) as [x Hx].
    apply (one_id_filter_length isInfer r x); [apply final_NoDup|].
    intros id Hin Hi. apply final_In in Hin as [Hin|(t & Ht & <-)].
    + apply Hbasic in Hin as [_ Hn]. congruence.
    + now apply Hx.
  - intros id Hin Hi. apply final_In in Hin as [Hin|(t & Ht & <-)].
    + apply Hbasic in Hin as [_ Hn]. congruence.
    + destruct (policy_infer_best f _ t Htone Ht Hi) as (t0 & Hin0 & Hi0 & Hid0 & Hmin).
      exists t0. apply filter_In in Hin0 as [Hc He].
      split; [|split; [exact Hid0|]].
      * unfold candidates. rewrite filter_In, He, Hi0. auto.
      * intros t' Ht'. unfold candidates in Ht'.
        apply filter_In in Ht' as [Hc' Hb]. apply andb_true_iff in Hb as [He' Hi'].
        apply Hmin; [|exact Hi']. rewrite filter_In. auto.
  - intros Hne.
    destruct (js_sort byPriority candidates) as [|best rest] eqn:Hs.
    { apply (f_equal (@length _)) in Hs. rewrite js_sort_length in Hs.
      destruct candidates; [congruence | discriminate]. }
    destruct (js_sort_head_first_min priority candidates best rest Hs)
      as (l1 & l2 & Heq & H1 & H2).
    assert (Hkept : In best (applyTonePolicy f eligibleTypes)).
    { apply (policy_keeps_best f eligibleTypes l1 l2 best Htone); auto.
      now rewrite Hfused. }
    exists best. split; [|split; [|split; [exact Hkept|split]]].
    + rewrite Heq. apply in_app_iff. right. now left.
    + intros t' Ht'. rewrite Heq in Ht'.
      apply in_app_iff in Ht' as [Ht'|[<-|Ht']].
      * specialize (H1 t' Ht'). lia.
      * lia.
      * now apply H2.
    + intros t Ht Hi.
      destruct (policy_infer_first_min f eligibleTypes t Htone Ht Hi)
        as (m1 & t0 & m2 & Heq' & Hid & G1 & G2).
      rewrite Hfused, Heq in Heq'.
      rewrite <- Hid. f_equal. symmetry.
      exact (first_min_unique priority l1 best l2 m1 t0 m2 Heq' H1 H2 G1 G2).
    + intros Hlen. now apply below_capacity_all_listed.
  - intros t Ht Hf Hi. now apply policy_keeps_other.
Qed.

End TonePolicy.

Section SelectorExtras.
Context `{RT : JsRuntime}.

(** ** The final list *)

(** X7: the final list has no id twice, also when the catalog lists an id
    more than once. *)
Theorem final_list_no_duplicates
    (d : option ExcelData) (f : gmap string value) (e : gmap string bool) (o : Options) :
  List.NoDup (decideFinalTypes d f e o).
Proof. apply final_NoDup. Qed.

(** X8: every id of the final list is one of the two basic ids or the id
    of a catalog entry, and reads as eligible: the map marks it eligible,
    or the map has no entry for it and it names a member that every object
    inherits.  When the map marks nothing eligible and no catalog id is
    such a name, the list is empty. *)
Theorem final_list_only_eligible
    (d : option ExcelData) (f : gmap string value) (e : gmap string bool) (o : Options) :
  (forall id, In id (decideFinalTypes d f e o) ->
     (e !! id = Some true \/ (e !! id = None /\ isInherited id = true))
     /\ (In id basicTypes \/ exists t, In t (getQuestionTypes d) /\ type_id t = id))
  /\ ((forall id, e !! id <> Some true) ->
      (forall t, In t (getQuestionTypes d) -> isInherited (type_id t) = false) ->
      decideFinalTypes d f e o = []).
Proof.
  split.
  - intros id Hin. apply final_eligible in Hin as [He Hc].
    split; [now apply isEligible_spec | exact Hc].
  - intros Hnone Hplain.
    destruct (decideFinalTypes d f e o) as [|id r] eqn:Hr; [reflexivity|].
    exfalso.
    destruct (final_eligible d f e o id) as [He Hc]; [rewrite Hr; now left|].
    apply isEligible_spec in He as [He|[_ Hi]]; [exact (Hnone id He)|].
    destruct Hc as [Hb|(t & Ht & <-)].
    + apply basic_not_inherited in Hb. congruence.
    + rewrite (Hplain t Ht) in Hi. discriminate.
Qed.

(** X9: raising the capacity never removes a type: every id listed for a
    capacity is listed for any larger one. *)
Theorem larger_capacity_keeps_types
    (d : option ExcelData) (f : gmap string value) (e : gmap string bool)
    (o o' : Options) (id : string) :
  default 5 (maxTypes o) <= default 5 (maxTypes o') ->
  In id (decideFinalTypes d f e o) -> In id (decideFinalTypes d f e o').
Proof.
  intros Hm. unfold decideFinalTypes, StrSet.to_array.
  rewrite !js_sort_In. now apply fill_mono.
Qed.

(** X10: a list shorter than the capacity has lost nothing to the
    capacity: it has every eligible catalog type that passed the tone
    policy, which for a tone other than "evaluative" is every eligible
    catalog type. *)
Theorem below_capacity_nothing_dropped
    (d : option ExcelData) (f : gmap string value) (e : gmap string bool) (o : Options) :
  Z.of_nat (length (decideFinalTypes d f e o)) < default 5 (maxTypes o) ->
  (forall t,
      In t (applyTonePolicy f
              (List.filter (fun type => isEligible e (type_id type)) (getQuestionTypes d))) ->
      In (type_id t) (decideFinalTypes d f e o))
  /\ (f !! "tone" <> Some (VStr "evaluative") ->
      forall t, In t (getQuestionTypes d) -> e !! type_id t = Some true ->
                In (type_id t) (decideFinalTypes d f e o)).
Proof.
  intros Hlen.
  assert (Hall : forall t,
      In t (applyTonePolicy f
              (List.filter (fun type => isEligible e (type_id type)) (getQuestionTypes d))) ->
      In (type_id t) (decideFinalTypes d f e o)).
  { unfold decideFinalTypes, StrSet.to_array in *.
    rewrite js_sort_length in Hlen. intros t Ht. apply js_sort_In.
    destruct (StrSet.has (addBasicTypes e) (type_id t)) eqn:Hh.
    - apply fill_keeps. now apply has_In.
    - apply fill_complete; [exact Hlen|].
      apply js_sort_In, filter_In. rewrite Hh. auto. }
  split; [exact Hall|].
  intros Htone t Ht He. apply Hall. rewrite policy_other_tone by exact Htone.
  apply filter_In. split; [exact Ht | now apply isEligible_own].
Qed.

(** X11: the capacity cuts from the low-precedence end.  If an id is in
    the list without being an eligible basic type, and a type that passed
    eligibility and the tone policy is not in the list, then the id belongs
    to such a type whose priority number is not larger. *)
Theorem capacity_drops_lowest_precedence
    (d : option ExcelData) (f : gmap string value) (e : gmap string bool) (o : Options)
    (id : string) (t' : QuestionType) :
  let passed :=
    applyTonePolicy f
      (List.filter (fun type => isEligible e (type_id type)) (getQuestionTypes d)) in
  In id (decideFinalTypes d f e o) -> ~ In id (eligibleBasicTypes e) ->
  In t' passed -> ~ In (type_id t') (decideFinalTypes d f e o) ->
  exists t, In t passed /\ type_id t = id /\ priority t <= priority t'.
Proof.
  intros passed. unfold decideFinalTypes, StrSet.to_array. fold passed.
  rewrite !js_sort_In, addBasicTypes_eq.
  set (cands := List.filter _ passed).
  destruct (fill_prefix (default 5 (maxTypes o)) (js_sort byPriority cands)
              (eligibleBasicTypes e)) as (l1 & l2 & Hsplit & Hiff).
  intros Hid Hnb Ht' Hout. rewrite Hiff in Hid, Hout.
  destruct Hid as [Hid|(t & Ht & Htid)]; [contradiction|].
  assert (Hsorted : StronglySorted (fun a b => priority a <= priority b) (l1 ++ l2)).
  { rewrite <- Hsplit. apply (js_sort_sorted byPriority priority). reflexivity. }
  assert (Hc' : In t' (l1 ++ l2)).
  { rewrite <- Hsplit. apply js_sort_In, filter_In. split; [exact Ht'|].
    apply negb_true_iff. destruct (StrSet.has _ _) eqn:Hh; [|reflexivity].
    exfalso. apply Hout. left. now apply has_In. }
  apply in_app_iff in Hc' as [Hc'|Hc'].
  { exfalso. apply Hout. right. eauto. }
  exists t. split; [|split; [exact Htid|]].
  - assert (Hc : In t (js_sort byPriority cands))
      by (rewrite Hsplit; apply in_app_iff; now left).
    apply js_sort_In, filter_In in Hc. tauto.
  - exact (sorted_app_order _ l1 l2 t t' Hsorted Ht Hc').
Qed.

(** X12: under an evaluative tone the inference id that can be listed is
    fixed by the catalog order: it is the id of the first, in catalog
    order, of the eligible inference types with the smallest priority
    number. *)
Theorem best_inference_is_first_of_smallest_priority
    (d : option ExcelData) (f : gmap string value) (e : gmap string bool) (o : Options)
    (id : string) :
  f !! "tone" = Some (VStr "evaluative") ->
  In id (decideFinalTypes d f e o) -> isInfer id = true ->
  exists l1 t l2,
    List.filter (fun t => isEligible e (type_id t) && isInfer (type_id t))
      (getQuestionTypes d) = l1 ++ t :: l2
    /\ type_id t = id
    /\ (forall x, In x l1 -> priority t < priority x)
    /\ (forall x, In x l2 -> priority t <= priority x).
Proof.
  intros Htone Hin Hi. apply final_In in Hin as [Hin|(t & Ht & <-)].
  - apply eligibleBasicTypes_In in Hin as [[<-|[<-|[]]] _]; discriminate.
  - destruct (policy_infer_first_min f _ t Htone Ht Hi) as (l1 & t0 & l2 & Heq & Hrest).
    rewrite inferTypes_fused in Heq. exists l1, t0, l2. auto.
Qed.

(** X16: for every catalog the final list is in ascending order of the key
    that the last step compares: the priority of the id's catalog entry
    when that is a non-zero number, 99 otherwise. *)
Theorem final_list_sorted_by_final_key
    (d : option ExcelData) (f : gmap string value) (e : gmap string bool) (o : Options) :
  StronglySorted
    (fun a b => priorityOr99 (makeTypeMap (getQuestionTypes d)) a
                <= priorityOr99 (makeTypeMap (getQuestionTypes d)) b)
    (decideFinalTypes d f e o).
Proof. apply final_sorted. Qed.

(** ** The whole process *)

Lemma determined_in_catalog (d : option ExcelData) (f : gmap string value) (o : Options)
    (id : string) :
  In id (finalTypes (determineQuestionTypes d f o)) ->
  (id <> "__proto__" -> calculateEligibility d f !! id = Some true)
  /\ exists t, makeTypeMap (getQuestionTypes d) !! id = Some t
               /\ In t (getQuestionTypes d) /\ type_id t = id.
Proof.
  simpl. intros Hin. apply final_eligible in Hin as [He Hc].
  apply isEligible_spec in He.
  assert (Hcat : exists t, In t (getQuestionTypes d) /\ type_id t = id).
  { destruct He as [He|[_ Hi]]; [now apply eligible_in_catalog in He|].
    destruct Hc as [Hb|Hc]; [|exact Hc].
    apply basic_not_inherited in Hb. congruence. }
  split.
  - intros Hp. destruct He as [He|[Hn _]]; [exact He|]. exfalso.
    rewrite calculateEligibility_lookup in Hn.
    apply String.eqb_neq in Hp. rewrite Hp in Hn.
    apply in_catalog_existsb in Hcat. rewrite Hcat in Hn. discriminate.
  - destruct Hcat as (t & Ht & Hid).
    pose proof (makeTypeMap_lookup (getQuestionTypes d) id) as Hl.
    destruct (makeTypeMap (getQuestionTypes d) !! id) as [t0|].
    + exists t0. tauto.
    + exfalso. exact (Hl t Ht Hid).
Qed.

(** X13: [typeDetails] follows [finalTypes]: same length, and entry by
    entry the detail carries the id at the same position. *)
Theorem type_details_follow_final_types
    (d : option ExcelData) (f : gmap string value) (o : Options) :
  let r := determineQuestionTypes d f o in
  List.map detailId (typeDetails r) = finalTypes r
  /\ length (typeDetails r) = length (finalTypes r).
Proof.
  simpl. split; [|apply length_map].
  rewrite map_map. rewrite <- (map_id (decideFinalTypes _ _ _ _)) at 2.
  apply map_ext_in. intros id _.
  pose proof (makeTypeMap_lookup (getQuestionTypes d) id) as Hl.
  destruct (makeTypeMap (getQuestionTypes d) !! id); simpl; tauto.
Qed.

(** X14: through [determineQuestionTypes] every final id is the id of a
    catalog entry, and unless it is [__proto__] the returned eligibility
    map marks it eligible; so a basic type that the catalog does not have
    is never listed, and every entry of [typeDetails] is a catalog record,
    never the id-only object. *)
Theorem determined_types_are_catalog_types
    (d : option ExcelData) (f : gmap string value) (o : Options) :
  let r := determineQuestionTypes d f o in
  (forall id, In id (finalTypes r) ->
     (id <> "__proto__" -> eligibility r !! id = Some true)
     /\ exists t, In t (getQuestionTypes d) /\ type_id t = id)
  /\ (forall x, In x (typeDetails r) ->
        exists t, x = CatalogType t /\ In t (getQuestionTypes d)
                  /\ In (type_id t) (finalTypes r)).
Proof.
  intros r. split.
  - intros id Hin. apply determined_in_catalog in Hin as [He (t & _ & Ht & Hid)].
    split; [exact He | eauto].
  - intros x Hx. unfold r in Hx. simpl in Hx. apply in_map_iff in Hx as (id & <- & Hin).
    destruct (determined_in_catalog d f o id Hin) as [_ (t & Hl & Ht & Hid)].
    rewrite Hl. exists t. split; [reflexivity|]. split; [exact Ht|].
    rewrite Hid. exact Hin.
Qed.

(** X15: the outcome of [determineQuestionTypes] depends on the attribute
    record only through [tone] and the features named by the requirements
    of the catalog types. *)
Theorem determination_reads_tone_and_required_features
    (d : option ExcelData) (f f' : gmap string value) (o : Options) :
  f !! "tone" = f' !! "tone" ->
  (forall t req, In t (getQuestionTypes d) ->
                 In req (getTypeRequirements d (type_id t)) ->
                 f !! feature req = f' !! feature req) ->
  determineQuestionTypes d f o = determineQuestionTypes d f' o.
Proof.
  intros Htone Hagree. unfold determineQuestionTypes.
  rewrite (calculateEligibility_frame d f f' Hagree).
  now rewrite (decideFinalTypes_tone_only d f f' _ o Htone).
Qed.

End SelectorExtras.

(** * The service on concrete inputs *)

Import IntRuntime Examples.

(** Scenario A of the specification. *)
Example scenario_A :
  let d := catalog [mkType "X" 1] [scoreAtLeast3] in
  calculateEligibility d {[ "score" := num 5 ]} !! "X" = Some true
  /\ calculateEligibility d {[ "score" := num 2 ]} !! "X" = Some false
  /\ calculateEligibility d ∅ !! "X" = Some false.
Proof. repeat split; vm_compute; reflexivity. Qed.

(** Scenario B of the specification. *)
Example scenario_B :
  let d := catalog [mkType "R_MAIN" 1; mkType "R_DETAIL" 2; mkType "R_INFER_A" 5;
                    mkType "R_INFER_B" 3; mkType "R_FLOW_X" 4] [] in
  decideFinalTypes d evaluative (calculateEligibility d evaluative) {| maxTypes := Some 5 |}
  = ["R_MAIN"; "R_DETAIL"; "R_INFER_B"].
Proof. vm_compute. reflexivity. Qed.

(** Scenario C of the specification. *)
Example scenario_C :
  let d := catalog [mkType "R_MAIN" 2; mkType "R_DETAIL" 3; mkType "OTHER" 1] [] in
  decideFinalTypes d ∅ (calculateEligibility d ∅) {| maxTypes := Some 2 |}
  = ["R_MAIN"; "R_DETAIL"].
Proof. vm_compute. reflexivity. Qed.

(** C1 as stated fails: with capacity 1 and both basic types eligible the
    list has two entries. *)
Lemma capacity_1_exceeded :
  decideFinalTypes None ∅ bothBasic {| maxTypes := Some 1 |} = ["R_MAIN"; "R_DETAIL"]
  /\ ~ (Z.of_nat (length (decideFinalTypes None ∅ bothBasic {| maxTypes := Some 1 |})) <= 1).
Proof.
  split; [vm_compute; reflexivity|].
  replace (decideFinalTypes None ∅ bothBasic {| maxTypes := Some 1 |})
    with ["R_MAIN"; "R_DETAIL"] by (vm_compute; reflexivity).
  simpl. lia.
Qed.

(** C6 as stated fails: capacity 0 does not behave as capacity 5. *)
Lemma capacity_0_is_not_default :
  decideFinalTypes None ∅ allEligible {| maxTypes := Some 0 |} = ["R_MAIN"; "R_DETAIL"]
  /\ decideFinalTypes None ∅ allEligible {| maxTypes := Some 5 |}
     = ["R_MAIN"; "R_DETAIL"; "R_DETAIL_SPECIFIC"; "R_INFER_REF"; "R_INFER_SUMMARY"]
  /\ decideFinalTypes None ∅ allEligible {| maxTypes := Some 0 |}
     <> decideFinalTypes None ∅ allEligible {| maxTypes := Some 5 |}.
Proof.
  assert (H0 : decideFinalTypes None ∅ allEligible {| maxTypes := Some 0 |}
               = ["R_MAIN"; "R_DETAIL"]) by (vm_compute; reflexivity).
  assert (H5 : decideFinalTypes None ∅ allEligible {| maxTypes := Some 5 |}
               = ["R_MAIN"; "R_DETAIL"; "R_DETAIL_SPECIFIC"; "R_INFER_REF"; "R_INFER_SUMMARY"])
    by (vm_compute; reflexivity).
  split; [exact H0 | split; [exact H5|]].
  rewrite H0, H5. discriminate.
Qed.

(** C9 as stated fails: with a priority-0 entry A, an entry B of priority
    150 and the eligible id R_MAIN missing from the catalog, the list is
    R_MAIN, A, B.  It is not ascending in the catalog priorities (99, 0,
    150), and the missing id is first, not last. *)
Lemma final_list_not_sorted_by_catalog_priority :
  let d := catalog [mkType "A" 0; mkType "B" 150] [] in
  let e : gmap string bool := {[ "A" := true; "B" := true; "R_MAIN" := true ]} in
  let typeMap := makeTypeMap (getQuestionTypes d) in
  let r := decideFinalTypes d ∅ e {| maxTypes := None |} in
  r = ["R_MAIN"; "A"; "B"]
  /\ ~ StronglySorted (fun a b => catalogPriority typeMap a <= catalogPriority typeMap b) r
  /\ ~ (forall a b, In a r -> In b r -> typeMap !! a = None -> typeMap !! b <> None ->
                    precedes r b a).
Proof.
  intros d e typeMap r.
  assert (Hr : r = ["R_MAIN"; "A"; "B"]) by (vm_compute; reflexivity).
  assert (Hm : typeMap !! "R_MAIN" = None) by (vm_compute; reflexivity).
  assert (Ha : typeMap !! "A" = Some (mkType "A" 0)) by (vm_compute; reflexivity).
  rewrite Hr. split; [reflexivity|]. split.
  - intros Hs. inversion Hs as [|? ? _ Hall]; subst.
    inversion Hall as [|? ? Hle _]; subst.
    unfold catalogPriority in Hle. rewrite Hm, Ha in Hle. simpl in Hle. lia.
  - intros H.
    assert (Hp : precedes ["R_MAIN"; "A"; "B"] "A" "R_MAIN").
    { apply H; simpl; auto; rewrite Ha; discriminate. }
    unfold precedes in Hp. simpl in Hp. destruct Hp as [Hp|[]]. discriminate.
Qed.


Lemma missing_feature_unsatisfied_witness :
  evaluateCondition ∅ "score" ">=" (num 3) = false.
Proof.
  apply (missing_feature_unsatisfied (RT := runtime) ∅ "score" ">=" (num 3)).
  left. split; reflexivity.
Defined.

Lemma inherited_feature_passes_guard_witness :
  evaluateCondition ∅ "toString" "~=" (num 3) = true.
Proof.
  apply (inherited_feature_passes_guard (RT := runtime) ∅ "toString" "~=" (num 3)).
  - reflexivity.
  - reflexivity.
  - simpl. intuition discriminate.
Defined.

(** C5 fails on the code: the empty record has no feature [constructor],
    but the read finds the inherited member, the guard for a missing
    feature does not fire, and [!=], [not_in] and an unknown operator are
    satisfied. *)
Lemma missing_feature_satisfied_through_prototype :
  (∅ : gmap string value) !! "constructor" = None
  /\ evaluateCondition ∅ "constructor" "!=" (str "x") = true
  /\ evaluateCondition ∅ "constructor" "not_in" (str "a,b") = true
  /\ evaluateCondition ∅ "constructor" "~=" (num 3) = true.
Proof. repeat split; vm_compute; reflexivity. Qed.

Lemma unknown_operator_passes_witness :
  evaluateCondition {[ "score" := num 5 ]} "score" "~=" (num 3) = true.
Proof.
  apply (unknown_operator_passes (RT := runtime)
           {[ "score" := num 5 ]} "score" "~=" (num 3) (num 5)).
  - vm_compute. reflexivity.
  - discriminate.
  - discriminate.
  - simpl. intuition discriminate.
Defined.

Lemma in_not_in_complement_witness :
  evaluateCondition {[ "tone" := str "Evaluative" ]} "tone" "in" (str "factual, evaluative")
  = negb (evaluateCondition {[ "tone" := str "Evaluative" ]} "tone" "not_in"
            (str "factual, evaluative")).
Proof.
  apply (in_not_in_complement (RT := runtime)
           {[ "tone" := str "Evaluative" ]} "tone" (str "factual, evaluative") (str "Evaluative")).
  - vm_compute. reflexivity.
  - discriminate.
  - discriminate.
Defined.

Lemma calculateEligibility_conjunction_witness :
  let d := catalog [mkType "X" 1; mkType "Y" 2] [scoreAtLeast3] in
  let f : gmap string value := {[ "score" := num 5 ]} in
  calculateEligibility d f !! "X"
  = Some (forallb (fun req => evaluateCondition f (feature req) (operator req) (value_ req))
            (getTypeRequirements d "X"))
  /\ (getTypeRequirements d "X" = [] ->
      forall f', calculateEligibility d f' !! "X" = Some true).
Proof.
  intros d f.
  apply (calculateEligibility_conjunction (RT := runtime) d f (mkType "X" 1)).
  - simpl. left. reflexivity.
  - discriminate.
Defined.

(** C4 fails on the code: for a catalog type with the id [__proto__] whose
    one requirement is not met, the map gets no entry (the assignment is
    ignored), the id reads as eligible all the same, and the type is
    selected. *)
Lemma proto_type_id_not_mapped :
  let d := catalog [mkType "__proto__" 1]
             [{| req_type_id := "__proto__"; feature := "score"; operator := ">=";
                 value_ := num 3 |}] in
  let f : gmap string value := {[ "score" := num 1 ]} in
  In (mkType "__proto__" 1) (getQuestionTypes d)
  /\ forallb (fun req => evaluateCondition f (feature req) (operator req) (value_ req))
       (getTypeRequirements d "__proto__") = false
  /\ calculateEligibility d f !! "__proto__" = None
  /\ isEligible (calculateEligibility d f) "__proto__" = true
  /\ finalTypes (determineQuestionTypes d f {| maxTypes := None |}) = ["__proto__"].
Proof.
  intros d f. split; [simpl; now left|].
  repeat split; vm_compute; reflexivity.
Qed.

Lemma evaluative_tone_policy_witness :
  let f := evaluative in
  let e := allEligible in
  let o := {| maxTypes := Some 10 |} in
  let r := decideFinalTypes None f e o in
  let eligibleTypes :=
    List.filter (fun type => isEligible e (type_id type)) (getQuestionTypes None) in
  let candidates :=
    List.filter (fun t => isEligible e (type_id t) && isInfer (type_id t))
      (getQuestionTypes None) in
  (forall id, In id r -> isFlow id = false)
  /\ (length (List.filter isInfer r) <= 1)%nat
  /\ (forall id, In id r -> isInfer id = true ->
        exists t, In t candidates /\ type_id t = id
                  /\ forall t', In t' candidates -> priority t <= priority t')
  /\ (candidates <> [] ->
        exists best, In best candidates
          /\ (forall t', In t' candidates -> priority best <= priority t')
          /\ In best (applyTonePolicy f eligibleTypes)
          /\ (forall t, In t (applyTonePolicy f eligibleTypes) ->
                        isInfer (type_id t) = true -> type_id t = type_id best)
          /\ (Z.of_nat (length r) < default 5 (maxTypes o) -> In (type_id best) r))
  /\ (forall t, In t eligibleTypes -> isFlow (type_id t) = false ->
                isInfer (type_id t) = false -> In t (applyTonePolicy f eligibleTypes)).
Proof.
  apply (evaluative_tone_policy (RT := runtime) None evaluative allEligible
           {| maxTypes := Some 10 |}).
  vm_compute. reflexivity.
Defined.

(** With every type of the built-in catalog eligible and an evaluative
    tone, the one inference type listed is R_INFER_REF, the first of the
    catalog and of the smallest priority. *)
Example evaluative_default_catalog :
  decideFinalTypes None evaluative allEligible {| maxTypes := Some 5 |}
  = ["R_MAIN"; "R_DETAIL"; "R_DETAIL_SPECIFIC"; "R_INFER_REF"; "R_GRAMMAR_USAGE"].
Proof. vm_compute. reflexivity. Qed.

Lemma default_capacity_witness :
  decideFinalTypes None ∅ allEligible {| maxTypes := None |}
  = decideFinalTypes None ∅ allEligible {| maxTypes := Some 5 |}
  /\ decideFinalTypes None ∅ allEligible {| maxTypes := Some (-3) |}
     = js_sort (finalOrder (makeTypeMap (getQuestionTypes None)))
         (eligibleBasicTypes allEligible).
Proof.
  apply (default_capacity (RT := runtime) None ∅ allEligible (-3)). lia.
Defined.

Lemma final_list_sorted_by_priority_witness :
  let d := catalog [mkType "A" 1; mkType "B" 150] [] in
  let e : gmap string bool := {[ "A" := true; "B" := true; "R_MAIN" := true ]} in
  let typeMap := makeTypeMap (getQuestionTypes d) in
  let r := decideFinalTypes d ∅ e {| maxTypes := None |} in
  StronglySorted (fun a b => catalogPriority typeMap a <= catalogPriority typeMap b) r
  /\ (forall a b, In a r -> In b r -> typeMap !! a = None ->
                  catalogPriority typeMap b < 99 -> precedes r b a).
Proof.
  intros d e.
  apply (final_list_sorted_by_priority (RT := runtime) d ∅ e {| maxTypes := None |}).
  intros t Ht. simpl in Ht. destruct Ht as [<-|[<-|[]]]; discriminate.
Defined.


(** ** Further examples *)

(** An array rule value is searched through its joined string form. *)
Example in_with_array_value :
  evaluateCondition {[ "tone" := str "Evaluative" ]} "tone" "in"
    (VArr [str "Factual"; str "Evaluative"]) = true
  /\ evaluateCondition {[ "tone" := str "b" ]} "tone" "in" (VArr [str "a,b"; str "c"]) = true.
Proof. split; vm_compute; reflexivity. Qed.

(** A basic type missing from the catalog can be listed by
    [decideFinalTypes], with an id-only detail, but not through
    [determineQuestionTypes]. *)
Example basic_type_missing_from_catalog :
  let d := catalog [mkType "A" 1] [] in
  decideFinalTypes d ∅ {[ "A" := true; "R_MAIN" := true ]} {| maxTypes := None |}
  = ["A"; "R_MAIN"]
  /\ finalTypes (determineQuestionTypes d ∅ {| maxTypes := None |}) = ["A"].
Proof. split; vm_compute; reflexivity. Qed.

Lemma equality_operators_witness :
  let f : gmap string value := {[ "score" := num 5 ]} in
  (forall (fs : gmap string value) k w,
      evaluateCondition fs k "==" w = evaluateCondition fs k "=" w
      /\ evaluateCondition fs k "<>" w = evaluateCondition fs k "!=" w)
  /\ evaluateCondition f "score" "!=" (num 3)
     = negb (evaluateCondition f "score" "=" (num 3)).
Proof.
  intros f.
  apply (equality_operators (RT := runtime) f "score" (num 3) (num 5)).
  - vm_compute. reflexivity.
  - discriminate.
  - discriminate.
Defined.

Lemma ordering_operators_witness :
  let f : gmap string value := {[ "score" := str "many" ]} in
  let holds op := evaluateCondition f "score" op (num 3) in
  (holds "<" && holds ">=" = false)
  /\ (holds ">" && holds "<=" = false)
  /\ (js_lt (normalizeValue (str "many")) (normalizeValue (num 3)) = None ->
      js_lt (normalizeValue (num 3)) (normalizeValue (str "many")) = None ->
      holds "<" = false /\ holds ">=" = false /\ holds ">" = false /\ holds "<=" = false).
Proof.
  intros f.
  apply (ordering_operators (RT := runtime) f "score" (num 3) (str "many")).
  - vm_compute. reflexivity.
  - discriminate.
  - discriminate.
Defined.

Lemma in_list_is_split_string_witness :
  let f : gmap string value := {[ "tone" := str "Evaluative" ]} in
  let v := VArr [str "Factual"; str "Evaluative"] in
  evaluateCondition f "tone" "in" v
  = includes
      (List.map (fun s => VStr (trim s)) (split_on "," (ToString (normalizeValue v))))
      (ToString (normalizeValue (str "Evaluative"))).
Proof.
  intros f v.
  apply (in_list_is_split_string (RT := runtime) f "tone" v (str "Evaluative")).
  - vm_compute. reflexivity.
  - discriminate.
  - discriminate.
Defined.

Lemma more_requirements_fewer_eligible_witness :
  let d := catalog [mkType "X" 1] [] in
  let d' := catalog [mkType "X" 1] [scoreAtLeast3] in
  let f : gmap string value := {[ "score" := num 5 ]} in
  calculateEligibility d f !! "X" = Some true.
Proof.
  intros d d' f.
  apply (more_requirements_fewer_eligible (RT := runtime) d d' f "X").
  - reflexivity.
  - intros k req Hreq. destruct Hreq.
  - vm_compute. reflexivity.
Defined.

Lemma eligibility_reads_required_features_only_witness :
  let d := catalog [mkType "X" 1] [scoreAtLeast3] in
  let f : gmap string value := {[ "score" := num 5; "tone" := str "factual" ]} in
  let f' : gmap string value := {[ "score" := num 5; "tone" := str "evaluative" ]} in
  calculateEligibility d f = calculateEligibility d f'.
Proof.
  intros d f f'.
  apply (eligibility_reads_required_features_only (RT := runtime) d f f').
  intros t req [<-|[]] Hreq. simpl in Hreq. destruct Hreq as [<-|[]].
  vm_compute. reflexivity.
Defined.

Lemma larger_capacity_keeps_types_witness :
  In "R_DETAIL_SPECIFIC" (decideFinalTypes None ∅ allEligible {| maxTypes := Some 4 |}).
Proof.
  apply (larger_capacity_keeps_types (RT := runtime) None ∅ allEligible
           {| maxTypes := Some 3 |} {| maxTypes := Some 4 |} "R_DETAIL_SPECIFIC").
  - simpl. lia.
  - vm_compute. auto 10.
Defined.

Lemma below_capacity_nothing_dropped_witness :
  let d := catalog [mkType "R_MAIN" 1; mkType "A" 3; mkType "R_FLOW_X" 2] [] in
  let e : gmap string bool := {[ "R_MAIN" := true; "A" := true; "R_FLOW_X" := true ]} in
  let f : gmap string value := ∅ in
  let o := {| maxTypes := None |} in
  (forall t,
      In t (applyTonePolicy f
              (List.filter (fun type => isEligible e (type_id type)) (getQuestionTypes d))) ->
      In (type_id t) (decideFinalTypes d f e o))
  /\ (f !! "tone" <> Some (VStr "evaluative") ->
      forall t, In t (getQuestionTypes d) -> e !! type_id t = Some true ->
                In (type_id t) (decideFinalTypes d f e o)).
Proof.
  intros d e f o.
  apply (below_capacity_nothing_dropped (RT := runtime) d f e o).
  vm_compute. reflexivity.
Defined.

Lemma capacity_drops_lowest_precedence_witness :
  let d := catalog [mkType "A" 3; mkType "B" 1; mkType "C" 2] [] in
  let e : gmap string bool := {[ "A" := true; "B" := true; "C" := true ]} in
  let f : gmap string value := ∅ in
  let o := {| maxTypes := Some 2 |} in
  decideFinalTypes d f e o = ["B"; "C"]
  /\ exists t,
       In t (applyTonePolicy f
               (List.filter (fun type => isEligible e (type_id type)) (getQuestionTypes d)))
       /\ type_id t = "C" /\ priority t <= priority (mkType "A" 3).
Proof.
  intros d e f o. split; [vm_compute; reflexivity|].
  apply (capacity_drops_lowest_precedence (RT := runtime) d f e o "C" (mkType "A" 3)).
  - vm_compute. auto 10.
  - vm_compute. tauto.
  - vm_compute. auto 10.
  - vm_compute. intros [H|[H|[]]]; discriminate.
Defined.

Lemma best_inference_is_first_of_smallest_priority_witness :
  exists l1 t l2,
    List.filter (fun t => isEligible allEligible (type_id t) && isInfer (type_id t))
      (getQuestionTypes None) = l1 ++ t :: l2
    /\ type_id t = "R_INFER_REF"
    /\ (forall x, In x l1 -> priority t < priority x)
    /\ (forall x, In x l2 -> priority t <= priority x).
Proof.
  apply (best_inference_is_first_of_smallest_priority (RT := runtime)
           None evaluative allEligible {| maxTypes := Some 10 |} "R_INFER_REF").
  - vm_compute. reflexivity.
  - vm_compute. auto 10.
  - reflexivity.
Defined.

Lemma determination_reads_tone_and_required_features_witness :
  let d := catalog [mkType "X" 1] [scoreAtLeast3] in
  let f : gmap string value := {[ "score" := num 5; "has_example" := VBool true ]} in
  let f' : gmap string value := {[ "score" := num 5 ]} in
  determineQuestionTypes d f {| maxTypes := None |}
  = determineQuestionTypes d f' {| maxTypes := None |}.
Proof.
  intros d f f'.
  apply (determination_reads_tone_and_required_features (RT := runtime) d f f').
  - vm_compute. reflexivity.
  - intros t req [<-|[]] Hreq. simpl in Hreq. destruct Hreq as [<-|[]].
    vm_compute. reflexivity.
Defined.
